(** * MAPnnet: the training controller and the convolution geometry walk

    A shallow embedding of [src/map/train.py]:
    - [Geometry]: [print_network_size], the dry-run walk over the
      convolutional layers (broadcasting of the per-layer vectors, the
      per-layer output sizes, the channel counts and the size of the first
      fully connected layer);
    - [Training]: [train], the epoch loop with its evaluation gate, its
      checkpoint gate and its progress lines;
    - [Main]: the script, once the command line is parsed: it walks the network
      in debug mode or fetches the data, gets the model and trains it.

    Python integers are [Z]; NumPy's fixed-width integers are [Z] with the
    wrap-around written out; Python exceptions are values of an error type
    and everything a run leaves behind (printed lines, files, progress
    lines) is kept in the state that is returned next to the error. *)

From Stdlib Require Import ZArith List Lia Bool String Ascii QArith Qround.
From Stdlib Require Import DecimalString DecimalNat.
Import ListNotations.

Local Open Scope Z_scope.

(** ** Python exceptions met on the modelled paths *)

Inductive PyError : Type :=
| IndexError          (* sequence index out of range *)
| ValueError          (* np.repeat with a negative count *)
| ZeroDivisionError   (* integer modulo by zero *)
| UnboundLocalError   (* a local read before any assignment *)
| OverflowError.      (* an integer quotient too large for a float *)

(** ** The product of a list of integers *)

Fixpoint list_prod (l : list Z) : Z :=
  match l with
  | [] => 1
  | x :: r => x * list_prod r
  end.

Module Geometry.

(** A triple of spatial extents, [np.array([x,y,z])]. *)
Definition Vec3 : Type := (Z * Z * Z)%type.

(** [np.repeat(v, 3)] on a scalar. *)
Definition np_repeat3 (v : Z) : Vec3 := (v, v, v).

(** [np.repeat(l, n)] on a sequence: every element [n] times, in order;
    a negative count is refused by NumPy. *)
Definition np_repeat (l : list Z) (n : Z) : PyError + list Z :=
  if n <? 0 then inl ValueError
  else inr (flat_map (fun v => repeat v (Z.to_nat n)) l).

(** [.astype(np.int16)]: the value reduced to the signed 16-bit range.
    (Outside that range the cast of a floating-point array is left to
    the platform; the proofs only use that the result is a 16-bit value
    and that values in range are kept.) *)
Definition astype_int16 (v : Z) : Z := (v + 32768) mod 65536 - 32768.

Definition astype_int16_3 (v : Vec3) : Vec3 :=
  let '(a, b, c) := v in (astype_int16 a, astype_int16 b, astype_int16 c).

(** [np.prod] of an [int64] array (and of an [int16] one, which is
    widened first) accumulates in signed 64-bit integers: the product
    wraps around modulo 2^64. *)
Definition wrap_int64 (v : Z) : Z :=
  (v + 9223372036854775808) mod 18446744073709551616 - 9223372036854775808.

Definition np_prod (v : Vec3) : Z :=
  let '(a, b, c) := v in wrap_int64 (a * b * c).

Definition in_int16 (v : Z) : Prop := -32768 <= v <= 32767.
Definition in_int64 (v : Z) : Prop :=
  -9223372036854775808 <= v <= 9223372036854775807.

(** [np.array([x,y,z])] of Python integers is an [int64] array exactly
    when the three fit 64 bits. *)
Definition fits_int64 (v : Z) : bool :=
  (-9223372036854775808 <=? v) && (v <=? 9223372036854775807).

Definition fits_int64_3 (v : Vec3) : bool :=
  let '(a, b, c) := v in fits_int64 a && fits_int64 b && fits_int64 c.

(** [int(np.prod(a))] for [a = np.array([x,y,z])]: the wrapped product
    when [a] is an [int64] array; otherwise [a] has another type
    ([uint64], [float64] or [object], as the values decide) and the
    product is NumPy's for that type, [wide]. *)
Definition int_np_prod (wide : Vec3 -> Z) (v : Vec3) : Z :=
  if fits_int64_3 v then np_prod v else wide v.

(** [n/2] on a Python integer is the quotient rounded to the nearest
    binary64, ties to even; it raises [OverflowError] when that is
    beyond the largest binary64, [2^1024 - 2^971], that is from the
    midpoint [2^1024 - 2^970] between it and [2^1024] on. *)
Definition float_overflows (n : Z) : bool :=
  2 ^ 1025 - 2 ^ 971 <=? Z.abs n.

(** *** The output-size formula *)

(** Modelled from the spec: [get_out_dims] is imported from [model.py],
    which is not among the sources.  Per axis the size is
    [floor((input + 2*padding - dilation*(kernel-1) - 1) / stride + 1)],
    the division being the exact (rational) one. *)
Definition out_dim (input padding dilation kernel stride : Z) : Z :=
  Qfloor (inject_Z (input + 2 * padding - dilation * (kernel - 1) - 1)
          / inject_Z stride + 1)%Q.

(** Modelled from the spec: [get_out_dims] of [model.py], the formula
    [out_dim] on each of the three axes independently. *)
Definition get_out_dims (input padding dilation kernel stride : Vec3) : Vec3 :=
  let '(i1, i2, i3) := input in
  let '(p1, p2, p3) := padding in
  let '(d1, d2, d3) := dilation in
  let '(k1, k2, k3) := kernel in
  let '(s1, s2, s3) := stride in
  (out_dim i1 p1 d1 k1 s1, out_dim i2 p2 d2 k2 s2, out_dim i3 p3 d3 k3 s3).

(** *** The walk of [print_network_size] *)

(** The parsed command line, as far as the walk reads it. *)
Record Args : Type := mkArgs {
  padding : list Z;
  dilation : list Z;
  kernel_size : list Z;
  stride : list Z;
  conv_layers : Z;
  filters : list Z;
  debug_size : Z * Z * Z * Z
}.

(** What the walk prints: one line per convolutional layer and the line
    of the fully connected layers. *)
Inductive Line : Type :=
| ConvLine (i : Z) (c_in : Z) (idims : Vec3) (c_out : Z) (dims : Vec3)
| FCLine (fc half : Z).

(** The locals of the walk, and its standard output. *)
Record Walk : Type := mkWalk {
  conv_layer_sizes : list Vec3;
  n_channels : list Z;
  stdout : list Line
}.

(** [v[i]] for a non-negative [i]. *)
Definition getitem (v : list Z) (i : nat) : PyError + Z :=
  match nth_error v i with
  | Some x => inr x
  | None => inl IndexError
  end.

(** [if len(v) == 1: v = np.repeat(v, conv_layers)] *)
Definition broadcast (v : list Z) (n : Z) : PyError + list Z :=
  if Nat.eqb (List.length v) 1 then np_repeat v n else inr v.

Section Walk.

  (** The size function the walk calls ([get_out_dims] of [model.py]);
      the walk is stated for any such function. *)
Variable out_dims : Vec3 -> Vec3 -> Vec3 -> Vec3 -> Vec3 -> Vec3.

Variables pad dil ker str fil : list Z.

  (** One turn of [for i in range(0, conv_layers)].  The four lookups are
      the arguments of the call and are evaluated first, left to right;
      [filters[i]] is read after the sizes have been appended. *)
Definition layer_step (i : nat) (w : Walk) : Walk * option PyError :=
    match getitem pad i with
    | inl e => (w, Some e)
    | inr p =>
    match getitem dil i with
    | inl e => (w, Some e)
    | inr d =>
    match getitem ker i with
    | inl e => (w, Some e)
    | inr k =>
    match getitem str i with
    | inl e => (w, Some e)
    | inr s =>
      let idims := last (conv_layer_sizes w) (0, 0, 0) in
      let dims := astype_int16_3
                    (out_dims idims (np_repeat3 p) (np_repeat3 d)
                              (np_repeat3 k) (np_repeat3 s)) in
      let w1 := mkWalk (conv_layer_sizes w ++ [dims]) (n_channels w) (stdout w) in
      match getitem fil i with
      | inl e => (w1, Some e)
      | inr f =>
        let c_in := last (n_channels w) 0 in
        let c_out := c_in * f in
        (mkWalk (conv_layer_sizes w1) (n_channels w ++ [c_out])
                (stdout w ++ [ConvLine (Z.of_nat i) c_in idims c_out dims]),
         None)
      end
    end end end end.

Fixpoint conv_loop (idx : list nat) (w : Walk) : Walk * option PyError :=
    match idx with
    | [] => (w, None)
    | i :: rest =>
      match layer_step i w with
      | (w', None) => conv_loop rest w'
      | (w', Some e) => (w', Some e)
      end
    end.

End Walk.

(** [fc = int(np.prod(conv_layer_sizes[-1])) * n_channels[-1]]: the
    product of the sizes is NumPy's, the multiplication by the channel
    count is on Python integers. *)
Definition fc_of (wide : Vec3 -> Z) (w : Walk) : Z :=
  int_np_prod wide (last (conv_layer_sizes w) (0, 0, 0))
  * last (n_channels w) 0.

Definition empty_walk : Walk := mkWalk [] [] [].

Section PrintNetworkSize.

  (** The size function, the integer [int(q)] of a binary64 quotient [q]
      that did not overflow, and the product of an array that is not an
      [int64] one; the walk is stated for any such functions. *)
Variable out_dims : Vec3 -> Vec3 -> Vec3 -> Vec3 -> Vec3 -> Vec3.
Variable int_half : Z -> Z.
Variable np_prod_wide : Vec3 -> Z.

(** The last two lines of the walk: [int(fc/2)] is an argument of
    [format] and is evaluated before anything is printed. *)
Definition report_fc (w : Walk) : Walk * option PyError :=
    let fc := fc_of np_prod_wide w in
    if float_overflows fc then (w, Some OverflowError)
    else (mkWalk (conv_layer_sizes w) (n_channels w)
                 (stdout w ++ [FCLine fc (int_half fc)]), None).

Definition print_network_size (args : Args) : Walk * option PyError :=
    let '(t, x, y, z) := debug_size args in
    match broadcast (padding args) (conv_layers args) with
    | inl e => (empty_walk, Some e)
    | inr pad =>
    match broadcast (dilation args) (conv_layers args) with
    | inl e => (empty_walk, Some e)
    | inr dil =>
    match broadcast (kernel_size args) (conv_layers args) with
    | inl e => (empty_walk, Some e)
    | inr ker =>
    match broadcast (stride args) (conv_layers args) with
    | inl e => (empty_walk, Some e)
    | inr str =>
      let w0 := mkWalk [(x, y, z)] [t] [] in
      match conv_loop out_dims pad dil ker str (filters args)
                      (seq 0 (Z.to_nat (conv_layers args))) w0 with
      | (w, Some e) => (w, Some e)
      | (w, None) => report_fc w
      end
    end end end end.

End PrintNetworkSize.


(** [int(fc/2)] where the binary64 quotient is exact, that is for
    [|fc| < 2^53]: the quotient truncated towards zero. *)
Definition int_half_small (fc : Z) : Z := Z.quot fc 2.

(** The exact product of three extents. *)
Definition volume (v : Vec3) : Z := let '(a, b, c) := v in a * b * c.

(** [int(np.prod(a))] for an [object] array [a]: the product of Python
    integers, which is exact. *)
Definition np_prod_object (v : Vec3) : Z := volume v.

Definition initial_channels (args : Args) : Z :=
  let '(t, _, _, _) := debug_size args in t.

Definition initial_dims (args : Args) : Vec3 :=
  let '(_, x, y, z) := debug_size args in (x, y, z).

(** *** What a printed layer line says *)

Definition line_index (l : Line) : Z :=
  match l with
  | ConvLine i _ _ _ _ => i
  | FCLine _ _ => -1
  end.

(** A layer line agrees with entry [i] of the five vectors: its output
    sizes are the cast result of the size function on the entries
    repeated over the three axes, and its output channels are the input
    channels times the layer's filter multiplier. *)
Definition line_ok (out_dims : Vec3 -> Vec3 -> Vec3 -> Vec3 -> Vec3 -> Vec3)
    (pad dil ker str fil : list Z) (l : Line) : Prop :=
  match l with
  | ConvLine i c_in idims c_out dims =>
    exists p d k s f,
      nth_error pad (Z.to_nat i) = Some p /\
      nth_error dil (Z.to_nat i) = Some d /\
      nth_error ker (Z.to_nat i) = Some k /\
      nth_error str (Z.to_nat i) = Some s /\
      nth_error fil (Z.to_nat i) = Some f /\
      dims = astype_int16_3 (out_dims idims (np_repeat3 p) (np_repeat3 d)
                                      (np_repeat3 k) (np_repeat3 s)) /\
      c_out = c_in * f
  | FCLine _ _ => True
  end.

(** The value a vector contributes to layer [i]: its only value when it
    has one, its [i]-th value otherwise. *)
Definition pick (v : list Z) (i : nat) : Z :=
  if Nat.eqb (List.length v) 1 then hd 0 v else nth i v 0.


(** The number of layers a vector can serve out of [n]: all of them when
    it has one value, as many as it has values otherwise. *)
Definition reach (v : list Z) (n : nat) : nat :=
  if Nat.eqb (List.length v) 1 then n else List.length v.




(** The number of layers the walk gets through. *)
Definition layers_walked (args : Args) : nat :=
  let n := Z.to_nat (conv_layers args) in
  Nat.min n
    (Nat.min (reach (padding args) n)
       (Nat.min (reach (dilation args) n)
          (Nat.min (reach (kernel_size args) n)
             (Nat.min (reach (stride args) n) (List.length (filters args)))))).

(** The layer line of valid arguments, from the sizes and channels that
    enter the layer. *)
Definition conv_line (out_dims : Vec3 -> Vec3 -> Vec3 -> Vec3 -> Vec3 -> Vec3)
    (args : Args) (i : nat) (c_in : Z) (idims : Vec3) : Line :=
  ConvLine (Z.of_nat i) c_in idims (c_in * nth i (filters args) 0)
    (astype_int16_3
       (out_dims idims (np_repeat3 (pick (padding args) i))
                 (np_repeat3 (pick (dilation args) i))
                 (np_repeat3 (pick (kernel_size args) i))
                 (np_repeat3 (pick (stride args) i)))).

(** *** Arguments used as examples *)



Definition args_three_layers : Args :=
  mkArgs [0] [1] [4; 3; 3] [2] 3 [4; 2; 3] (2, 64, 64, 64).

Definition args_no_layers_huge : Args :=
  mkArgs [0] [1] [3] [1] 0 []
         (1, 2147483648, 2147483648, 2147483648).

(** *** Arithmetic of the casts and of the formula *)

Lemma list_prod_app (l r : list Z) :
  list_prod (l ++ r) = list_prod l * list_prod r.
Proof.
  induction l as [|x l IH]; simpl.
  - now destruct (list_prod r).
  - rewrite IH. ring.
Qed.

Lemma last_snoc {A} (l : list A) (x d : A) : last (l ++ [x]) d = x.
Proof. apply last_last. Qed.


Lemma astype_int16_range (v : Z) : in_int16 (astype_int16 v).
Proof.
  unfold in_int16, astype_int16.
  pose proof (Z.mod_pos_bound (v + 32768) 65536 ltac:(lia)). lia.
Qed.

Lemma astype_int16_id (v : Z) : in_int16 v -> astype_int16 v = v.
Proof.
  unfold in_int16, astype_int16. intros H.
  rewrite Z.mod_small by lia. lia.
Qed.

Lemma wrap_int64_id (v : Z) : in_int64 v -> wrap_int64 v = v.
Proof.
  unfold in_int64, wrap_int64. intros H.
  rewrite Z.mod_small by lia. lia.
Qed.

Lemma int16_product_in_int64 (a b c : Z) :
  in_int16 a -> in_int16 b -> in_int16 c -> in_int64 (a * b * c).
Proof.
  unfold in_int16, in_int64. intros Ha Hb Hc.
  assert (Hab : -1073741824 <= a * b <= 1073741824) by nia.
  nia.
Qed.

Lemma np_prod_int16 (a b c : Z) :
  in_int16 a -> in_int16 b -> in_int16 c -> np_prod (a, b, c) = a * b * c.
Proof.
  intros Ha Hb Hc. unfold np_prod.
  apply wrap_int64_id, int16_product_in_int64; assumption.
Qed.

(** The rational floor of the formula is the integer floor division. *)
Lemma out_dim_floor_div (input padding dilation kernel stride : Z) :
  stride <> 0 ->
  out_dim input padding dilation kernel stride
  = (input + 2 * padding - dilation * (kernel - 1) - 1) / stride + 1.
Proof.
  intros Hs. unfold out_dim.
  set (a := input + 2 * padding - dilation * (kernel - 1) - 1).
  destruct stride as [|s|s]; [congruence| |].
  - unfold Qfloor, Qplus, Qdiv, Qmult, Qinv, inject_Z. simpl Qnum. simpl Qden.
    rewrite Pos.mul_1_r.
    replace (a * 1 * 1 + 1 * Z.pos s) with (a + 1 * Z.pos s) by ring.
    rewrite Z.div_add by lia. reflexivity.
  - unfold Qfloor, Qplus, Qdiv, Qmult, Qinv, inject_Z. simpl Qnum. simpl Qden.
    rewrite Pos.mul_1_r.
    replace (a * -1 * 1 + 1 * Z.pos s) with (- a + 1 * Z.pos s) by ring.
    rewrite Z.div_add by lia.
    f_equal. change (Z.neg s) with (- Z.pos s).
    rewrite <- (Z.div_opp_opp a (- Z.pos s)) by lia.
    rewrite Z.opp_involutive. reflexivity.
Qed.

(** Where the numerator is not negative and the stride is positive, the
    floor is also the quotient truncated towards zero. *)
Lemma out_dim_truncates (input padding dilation kernel stride : Z) :
  0 < stride ->
  0 <= input + 2 * padding - dilation * (kernel - 1) - 1 ->
  out_dim input padding dilation kernel stride
  = Z.quot (input + 2 * padding - dilation * (kernel - 1) - 1) stride + 1.
Proof.
  intros Hs Hn. rewrite out_dim_floor_div by lia.
  rewrite Z.quot_div_nonneg by lia. reflexivity.
Qed.


(** *** The loop over the layers *)

Section WalkFacts.

Variable out_dims : Vec3 -> Vec3 -> Vec3 -> Vec3 -> Vec3 -> Vec3.
Variables pad dil ker str fil : list Z.

Local Abbreviation step := (layer_step out_dims pad dil ker str fil).
Local Abbreviation loop := (conv_loop out_dims pad dil ker str fil).
Local Abbreviation ok_line := (line_ok out_dims pad dil ker str fil).

Lemma getitem_some (v : list Z) (i : nat) (x : Z) :
  nth_error v i = Some x -> getitem v i = inr x.
Proof. unfold getitem. now intros ->. Qed.

Lemma getitem_none (v : list Z) (i : nat) :
  (List.length v <= i)%nat -> getitem v i = inl IndexError.
Proof.
  intros H. unfold getitem.
  now rewrite (proj2 (nth_error_None v i) H).
Qed.

Lemma getitem_cases (v : list Z) (i : nat) :
  (exists x, nth_error v i = Some x /\ getitem v i = inr x)
  \/ ((List.length v <= i)%nat /\ getitem v i = inl IndexError).
Proof.
  unfold getitem. destruct (nth_error v i) as [x|] eqn:E.
  - left. now exists x.
  - right. split; [now apply nth_error_None|reflexivity].
Qed.

(** A turn either appends the layer's line, its sizes and its channel
    count, or stops on an index error with nothing printed. *)
Lemma layer_step_cases (i : nat) (w : Walk) :
  (exists p d k s f,
     nth_error pad i = Some p /\ nth_error dil i = Some d /\
     nth_error ker i = Some k /\ nth_error str i = Some s /\
     nth_error fil i = Some f /\
     let idims := last (conv_layer_sizes w) (0, 0, 0) in
     let dims := astype_int16_3 (out_dims idims (np_repeat3 p) (np_repeat3 d)
                                          (np_repeat3 k) (np_repeat3 s)) in
     let c_in := last (n_channels w) 0 in
     step i w = (mkWalk (conv_layer_sizes w ++ [dims])
                        (n_channels w ++ [c_in * f])
                        (stdout w ++ [ConvLine (Z.of_nat i) c_in idims (c_in * f) dims]),
                 None))
  \/ (((List.length pad <= i)%nat \/ (List.length dil <= i)%nat \/
       (List.length ker <= i)%nat \/ (List.length str <= i)%nat \/
       (List.length fil <= i)%nat) /\
      snd (step i w) = Some IndexError /\
      stdout (fst (step i w)) = stdout w).
Proof.
  unfold layer_step.
  destruct (getitem_cases pad i) as [(p & Hp & ->)|(Hp & ->)];
    [|right; simpl; auto].
  destruct (getitem_cases dil i) as [(d & Hd & ->)|(Hd & ->)];
    [|right; simpl; auto].
  destruct (getitem_cases ker i) as [(k & Hk & ->)|(Hk & ->)];
    [|right; simpl; auto].
  destruct (getitem_cases str i) as [(s & Hs & ->)|(Hs & ->)];
    [|right; simpl; auto 6].
  destruct (getitem_cases fil i) as [(f & Hf & ->)|(Hf & ->)];
    [|right; simpl; auto 8].
  left. exists p, d, k, s, f. simpl. auto 8.
Qed.

(** The loop prints the lines of a prefix of its indices, each agreeing
    with the vectors; it ends normally or on an index error, and on a
    normal end every index has its line and the channels have been
    multiplied by every filter entry met. *)
Lemma conv_loop_spec (idx : list nat) :
  forall w,
  exists done,
    stdout (fst (loop idx w)) = stdout w ++ done /\
    Forall ok_line done /\
    map line_index done = map Z.of_nat (firstn (List.length done) idx) /\
    (snd (loop idx w) = None \/ snd (loop idx w) = Some IndexError) /\
    (snd (loop idx w) = None ->
       List.length done = List.length idx /\
       last (n_channels (fst (loop idx w))) 0
       = last (n_channels w) 0 * list_prod (map (fun i => nth i fil 0) idx) /\
       (idx <> [] ->
          exists v, last (conv_layer_sizes (fst (loop idx w))) (0, 0, 0)
                    = astype_int16_3 v) /\
       (idx = [] -> fst (loop idx w) = w)).
Proof.
  induction idx as [|i rest IH]; intros w.
  - exists []. simpl. rewrite app_nil_r.
    repeat split; auto; try lia. congruence.
  - simpl conv_loop.
    destruct (layer_step_cases i w)
      as [(p & d & k & s & f & Hp & Hd & Hk & Hs & Hf & Hstep)
         |(Hlen & Herr & Hout)].
    + cbv zeta in Hstep. rewrite Hstep.
      set (w1 := mkWalk _ _ _).
      destruct (IH w1) as (done & Hd1 & Hd2 & Hd3 & Hd4 & Hd5).
      exists (ConvLine (Z.of_nat i) (last (n_channels w) 0)
                       (last (conv_layer_sizes w) (0, 0, 0))
                       (last (n_channels w) 0 * f)
                       (astype_int16_3
                          (out_dims (last (conv_layer_sizes w) (0, 0, 0))
                                    (np_repeat3 p) (np_repeat3 d)
                                    (np_repeat3 k) (np_repeat3 s)))
              :: done).
      split; [|split; [|split; [|split]]].
      * rewrite Hd1. unfold w1. simpl. now rewrite <- app_assoc.
      * constructor; [|exact Hd2].
        simpl. exists p, d, k, s, f. rewrite Nat2Z.id. auto 8.
      * simpl. now rewrite Hd3.
      * exact Hd4.
      * intros Hnone. destruct (Hd5 Hnone) as (L1 & L2 & L3 & L4).
        split; [simpl; now rewrite L1|].
        split.
        { rewrite L2. unfold w1. simpl n_channels. rewrite last_snoc.
          simpl. rewrite (nth_error_nth _ _ 0 Hf). ring. }
        split; [|discriminate].
        intros _. destruct rest as [|j rest'].
        { rewrite (L4 eq_refl). unfold w1. simpl. rewrite last_snoc.
          eexists. reflexivity. }
        { apply L3. discriminate. }
    + destruct (step i w) as [w' [e|]] eqn:E; simpl in Herr, Hout;
        [|discriminate].
      injection Herr as ->.
      exists []. simpl. rewrite app_nil_r.
      repeat split; auto; discriminate.
Qed.

(** The loop ends normally when every index is within the five vectors. *)
Lemma conv_loop_success (idx : list nat) :
  forall w,
  (forall i, In i idx ->
     (i < List.length pad)%nat /\ (i < List.length dil)%nat /\
     (i < List.length ker)%nat /\ (i < List.length str)%nat /\
     (i < List.length fil)%nat) ->
  snd (loop idx w) = None.
Proof.
  induction idx as [|i rest IH]; intros w Hin; [reflexivity|].
  simpl conv_loop.
  destruct (layer_step_cases i w)
    as [(p & d & k & s & f & _ & _ & _ & _ & _ & Hstep)|(Hlen & _)].
  - cbv zeta in Hstep. rewrite Hstep. apply IH.
    intros j Hj. apply Hin. now right.
  - specialize (Hin i (or_introl eq_refl)). lia.
Qed.

(** The loop ends on an index error when some index is beyond one of the
    five vectors. *)
Lemma conv_loop_failure (idx : list nat) :
  forall w,
  (exists i, In i idx /\
     ((List.length pad <= i)%nat \/ (List.length dil <= i)%nat \/
      (List.length ker <= i)%nat \/ (List.length str <= i)%nat \/
      (List.length fil <= i)%nat)) ->
  snd (loop idx w) = Some IndexError.
Proof.
  induction idx as [|i rest IH]; intros w (j & Hj & Hbad); [contradiction|].
  simpl conv_loop.
  destruct (layer_step_cases i w)
    as [(p & d & k & s & f & Hp & Hd & Hk & Hs & Hf & Hstep)|(_ & Herr & _)].
  - cbv zeta in Hstep. rewrite Hstep. apply IH.
    destruct Hj as [<-|Hj]; [|now exists j].
    exfalso.
    pose proof (proj1 (nth_error_Some pad i)) as Lp.
    pose proof (proj1 (nth_error_Some dil i)) as Ld.
    pose proof (proj1 (nth_error_Some ker i)) as Lk.
    pose proof (proj1 (nth_error_Some str i)) as Ls.
    pose proof (proj1 (nth_error_Some fil i)) as Lf.
    rewrite Hp in Lp. rewrite Hd in Ld. rewrite Hk in Lk.
    rewrite Hs in Ls. rewrite Hf in Lf.
    assert (i < List.length pad)%nat by (apply Lp; discriminate).
    assert (i < List.length dil)%nat by (apply Ld; discriminate).
    assert (i < List.length ker)%nat by (apply Lk; discriminate).
    assert (i < List.length str)%nat by (apply Ls; discriminate).
    assert (i < List.length fil)%nat by (apply Lf; discriminate).
    lia.
  - destruct (step i w) as [w' [e|]]; simpl in Herr; [|discriminate].
    now injection Herr as ->.
Qed.

Lemma conv_loop_app (a b : list nat) :
  forall w,
  loop (a ++ b) w
  = match loop a w with
    | (w', None) => loop b w'
    | (w', Some e) => (w', Some e)
    end.
Proof.
  induction a as [|i a IH]; intros w; [reflexivity|].
  simpl. destruct (step i w) as [w1 [e|]]; [reflexivity|apply IH].
Qed.

(** Over [range(0, n)] the loop gets through as many layers as the
    shortest vector has entries, and fails there unless that is all [n]. *)
Lemma walk_outcome (n : nat) (w : Walk) :
  let k := Nat.min n
             (Nat.min (List.length pad)
                (Nat.min (List.length dil)
                   (Nat.min (List.length ker)
                      (Nat.min (List.length str) (List.length fil))))) in
  exists done,
    stdout (fst (loop (seq 0 n) w)) = stdout w ++ done /\
    map line_index done = map Z.of_nat (seq 0 k) /\
    Forall ok_line done /\
    snd (loop (seq 0 n) w) = (if (k <? n)%nat then Some IndexError else None).
Proof.
  intros k.
  assert (Hk : (k <= n)%nat) by (unfold k; lia).
  assert (Hsplit : seq 0 n = seq 0 k ++ seq k (n - k)).
  { rewrite <- seq_app. f_equal. lia. }
  rewrite Hsplit, conv_loop_app.
  pose proof (conv_loop_success (seq 0 k) w) as Hok.
  destruct (conv_loop_spec (seq 0 k) w) as (done & H1 & H2 & H3 & _ & H5).
  assert (Hnone : snd (loop (seq 0 k) w) = None).
  { apply Hok. intros i Hi. apply in_seq in Hi. unfold k in Hi. lia. }
  destruct (H5 Hnone) as (Hlen & _). rewrite length_seq in Hlen.
  destruct (loop (seq 0 k) w) as [w1 r] eqn:E. simpl in Hnone, H1. subst r.
  exists done.
  rewrite Hlen, firstn_all2 in H3 by (rewrite length_seq; lia).
  destruct (Nat.ltb_spec k n) as [Hlt|Hge].
  - replace (n - k)%nat with (S (n - k - 1)) by lia.
    simpl seq. simpl conv_loop.
    destruct (layer_step_cases k w1)
      as [(p & d & c & s & f & Hp & Hd & Hc & Hs & Hf & _)|(_ & Herr & Hout)].
    + exfalso.
      pose proof (proj1 (nth_error_Some pad k)) as Lp.
      pose proof (proj1 (nth_error_Some dil k)) as Ld.
      pose proof (proj1 (nth_error_Some ker k)) as Lk.
      pose proof (proj1 (nth_error_Some str k)) as Ls.
      pose proof (proj1 (nth_error_Some fil k)) as Lf.
      rewrite Hp in Lp. rewrite Hd in Ld. rewrite Hc in Lk.
      rewrite Hs in Ls. rewrite Hf in Lf.
      assert (k < List.length pad)%nat by (apply Lp; discriminate).
      assert (k < List.length dil)%nat by (apply Ld; discriminate).
      assert (k < List.length ker)%nat by (apply Lk; discriminate).
      assert (k < List.length str)%nat by (apply Ls; discriminate).
      assert (k < List.length fil)%nat by (apply Lf; discriminate).
      unfold k in *. lia.
    + destruct (step k w1) as [w2 [e|]]; simpl in Herr, Hout; [|discriminate].
      injection Herr as ->. simpl. rewrite Hout. auto.
  - replace (n - k)%nat with 0%nat by lia. simpl. auto.
Qed.

End WalkFacts.

(** *** Broadcasting *)

Lemma broadcast_single (v n : Z) :
  0 <= n -> broadcast [v] n = inr (repeat v (Z.to_nat n)).
Proof.
  intros Hn. unfold broadcast, np_repeat. simpl.
  destruct (Z.ltb_spec n 0); [lia|]. now rewrite app_nil_r.
Qed.

Lemma broadcast_as_is (v : list Z) (n : Z) :
  List.length v <> 1%nat -> broadcast v n = inr v.
Proof.
  intros H. unfold broadcast.
  destruct (Nat.eqb_spec (List.length v) 1); [contradiction|reflexivity].
Qed.

(** For a non-negative number of layers broadcasting never fails; the
    result has [reach v n] entries and entry [i] is [pick v i]. *)
Lemma broadcast_reach (v : list Z) (n : Z) :
  0 <= n ->
  exists v',
    broadcast v n = inr v' /\
    List.length v' = reach v (Z.to_nat n) /\
    forall i, (i < List.length v')%nat -> nth_error v' i = Some (pick v i).
Proof.
  intros Hn. unfold broadcast, reach, pick.
  destruct (Nat.eqb_spec (List.length v) 1) as [H1|H1].
  - destruct v as [|x [|y r]]; try discriminate.
    fold (broadcast [x] n).
    exists (repeat x (Z.to_nat n)).
    split; [unfold np_repeat; simpl; destruct (Z.ltb_spec n 0);
            [lia|now rewrite app_nil_r]|].
    split; [apply repeat_length|].
    intros i Hi. rewrite repeat_length in Hi. simpl.
    rewrite nth_error_repeat by assumption. reflexivity.
  - exists v. split; [reflexivity|]. split; [reflexivity|].
    intros i Hi. now apply nth_error_nth'.
Qed.


(** *** The whole walk *)

Section WalkOutcome.

Variable out_dims : Vec3 -> Vec3 -> Vec3 -> Vec3 -> Vec3 -> Vec3.
Variable int_half : Z -> Z.
Variable np_prod_wide : Vec3 -> Z.

Local Abbreviation pns := (print_network_size out_dims int_half np_prod_wide).
Local Abbreviation report := (report_fc int_half np_prod_wide).

(** The last two lines leave the sizes and the channels as they are, and
    print the line of the fully connected layers unless the quotient
    overflows. *)
Lemma report_fc_outcome (w : Walk) :
  conv_layer_sizes (fst (report w)) = conv_layer_sizes w /\
  n_channels (fst (report w)) = n_channels w /\
  fc_of np_prod_wide (fst (report w)) = fc_of np_prod_wide w /\
  if float_overflows (fc_of np_prod_wide w)
  then snd (report w) = Some OverflowError /\
       stdout (fst (report w)) = stdout w
  else snd (report w) = None /\
       stdout (fst (report w))
       = stdout w ++ [FCLine (fc_of np_prod_wide w)
                             (int_half (fc_of np_prod_wide w))].
Proof.
  unfold report_fc.
  destruct (float_overflows (fc_of np_prod_wide w)); simpl; auto.
Qed.

(** The walk after broadcasting, with the broadcast vectors named. *)
Lemma print_network_size_unfold (args : Args) :
  0 <= conv_layers args ->
  exists pad dil ker str,
    let n := Z.to_nat (conv_layers args) in
    let '(t, x, y, z) := debug_size args in
    (List.length pad = reach (padding args) n /\
     List.length dil = reach (dilation args) n /\
     List.length ker = reach (kernel_size args) n /\
     List.length str = reach (stride args) n) /\
    (forall i p, nth_error pad i = Some p -> p = pick (padding args) i) /\
    (forall i p, nth_error dil i = Some p -> p = pick (dilation args) i) /\
    (forall i p, nth_error ker i = Some p -> p = pick (kernel_size args) i) /\
    (forall i p, nth_error str i = Some p -> p = pick (stride args) i) /\
    pns args
    = match conv_loop out_dims pad dil ker str (filters args) (seq 0 n)
                      (mkWalk [(x, y, z)] [t] []) with
      | (w, Some e) => (w, Some e)
      | (w, None) => report w
      end.
Proof.
  intros Hn.
  destruct (broadcast_reach (padding args) _ Hn) as (pad & Ep & Lp & Np).
  destruct (broadcast_reach (dilation args) _ Hn) as (dil & Ed & Ld & Nd).
  destruct (broadcast_reach (kernel_size args) _ Hn) as (ker & Ek & Lk & Nk).
  destruct (broadcast_reach (stride args) _ Hn) as (str & Es & Ls & Ns).
  exists pad, dil, ker, str. unfold print_network_size.
  destruct (debug_size args) as [[[t x] y] z].
  rewrite Ep, Ed, Ek, Es.
  assert (Hpick : forall v v' : list Z,
            (forall i, (i < List.length v')%nat ->
                       nth_error v' i = Some (pick v i)) ->
            forall i p, nth_error v' i = Some p -> p = pick v i).
  { intros v v' Hv i p Hp.
    assert (Hi : (i < List.length v')%nat)
      by (apply nth_error_Some; rewrite Hp; discriminate).
    rewrite (Hv i Hi) in Hp. congruence. }
  repeat split; eauto.
Qed.

(** A line that agrees with the broadcast vectors is the layer line of
    the arguments. *)
Lemma line_ok_conv_line (args : Args) (pad dil ker str : list Z) (l : Line) :
  (forall i p, nth_error pad i = Some p -> p = pick (padding args) i) ->
  (forall i p, nth_error dil i = Some p -> p = pick (dilation args) i) ->
  (forall i p, nth_error ker i = Some p -> p = pick (kernel_size args) i) ->
  (forall i p, nth_error str i = Some p -> p = pick (stride args) i) ->
  0 <= line_index l ->
  line_ok out_dims pad dil ker str (filters args) l ->
  exists c idims, l = conv_line out_dims args (Z.to_nat (line_index l)) c idims.
Proof.
  intros Hp Hd Hk Hs Hi Hok.
  destruct l as [i c_in idims c_out dims|fc half]; simpl in Hi; [|lia].
  destruct Hok as (p & d & k & s & f & Ep & Ed & Ek & Es & Ef & -> & ->).
  exists c_in, idims. unfold conv_line. simpl line_index.
  rewrite Z2Nat.id by assumption.
  rewrite (Hp _ _ Ep), (Hd _ _ Ed), (Hk _ _ Ek), (Hs _ _ Es).
  now rewrite (nth_error_nth _ _ 0 Ef).
Qed.

(** The outcome of the walk for any arguments with a non-negative number
    of layers: the lines of the first [layers_walked] layers, each
    computed from the picked values, then an index error, or the overflow
    of the halved count, or the line of the fully connected layers. *)
Lemma print_network_size_outcome (args : Args) :
  0 <= conv_layers args ->
  exists convs,
    map line_index convs = map Z.of_nat (seq 0 (layers_walked args)) /\
    Forall (fun l => exists c idims,
              l = conv_line out_dims args (Z.to_nat (line_index l)) c idims)
           convs /\
    if (layers_walked args <? Z.to_nat (conv_layers args))%nat
    then snd (pns args) = Some IndexError /\ stdout (fst (pns args)) = convs
    else if float_overflows (fc_of np_prod_wide (fst (pns args)))
         then snd (pns args) = Some OverflowError /\
              stdout (fst (pns args)) = convs
         else snd (pns args) = None /\
              stdout (fst (pns args))
              = convs ++ [FCLine (fc_of np_prod_wide (fst (pns args)))
                                 (int_half (fc_of np_prod_wide
                                              (fst (pns args))))].
Proof.
  intros Hn.
  destruct (print_network_size_unfold args Hn) as (pad & dil & ker & str & H).
  cbv zeta in H. destruct (debug_size args) as [[[t x] y] z].
  destruct H as ((Lp & Ld & Lk & Ls) & Np & Nd & Nk & Ns & Hrun).
  destruct (walk_outcome out_dims pad dil ker str (filters args)
              (Z.to_nat (conv_layers args)) (mkWalk [(x, y, z)] [t] []))
    as (done & H1 & H2 & H3 & H4).
  rewrite Lp, Ld, Lk, Ls in H2, H4. fold (layers_walked args) in H2, H4.
  exists done. split; [exact H2|]. split.
  - rewrite Forall_forall in *. intros l Hl.
    apply (line_ok_conv_line args pad dil ker str); auto.
    assert (Hin : In (line_index l) (map line_index done))
      by now apply in_map.
    rewrite H2 in Hin. apply in_map_iff in Hin.
    destruct Hin as (j & <- & _). lia.
  - rewrite Hrun.
    destruct (conv_loop _ _ _ _ _ _ _ _) as [w r]. simpl in H1, H4. subst r.
    destruct (_ <? _)%nat; simpl; [split; auto|].
    destruct (report_fc_outcome w) as (_ & _ & Hfc & Hout).
    rewrite Hfc.
    destruct (float_overflows (fc_of np_prod_wide w));
      destruct Hout as (He & Hs); rewrite He, Hs; simpl in H1; rewrite H1;
      auto.
Qed.


End WalkOutcome.





Lemma fits_int64_3_int16 (v : Vec3) : fits_int64_3 (astype_int16_3 v) = true.
Proof.
  destruct v as [[a b] c]. unfold fits_int64_3, astype_int16_3, fits_int64.
  pose proof (astype_int16_range a) as Ha.
  pose proof (astype_int16_range b) as Hb.
  pose proof (astype_int16_range c) as Hc.
  unfold in_int16 in *.
  repeat (apply andb_true_intro; split); apply Z.leb_le; lia.
Qed.

(** The product of sizes that came out of a layer is exact. *)
Lemma int_np_prod_int16 (wide : Vec3 -> Z) (v : Vec3) :
  int_np_prod wide (astype_int16_3 v)
  = let '(a, b, c) := astype_int16_3 v in a * b * c.
Proof.
  unfold int_np_prod. rewrite fits_int64_3_int16.
  destruct v as [[a b] c]. simpl.
  apply wrap_int64_id, int16_product_in_int64; apply astype_int16_range.
Qed.

(** *** The size formula (C3) *)

(** C3: on every axis the output size is
    floor((input + 2*padding - dilation*(kernel-1) - 1) / stride + 1),
    each axis from its own entries only, the floor being the integer
    floor division; for input (64,64,64), kernel 4, stride 2, dilation 1
    and padding 0 the sizes are (31,31,31), also as the walk prints them. *)
Theorem get_out_dims_formula
    (i1 i2 i3 p1 p2 p3 d1 d2 d3 k1 k2 k3 s1 s2 s3 : Z) :
  s1 <> 0 -> s2 <> 0 -> s3 <> 0 ->
  get_out_dims (i1, i2, i3) (p1, p2, p3) (d1, d2, d3) (k1, k2, k3) (s1, s2, s3)
  = ((i1 + 2 * p1 - d1 * (k1 - 1) - 1) / s1 + 1,
     (i2 + 2 * p2 - d2 * (k2 - 1) - 1) / s2 + 1,
     (i3 + 2 * p3 - d3 * (k3 - 1) - 1) / s3 + 1)
  /\ get_out_dims (64, 64, 64) (np_repeat3 0) (np_repeat3 1)
                  (np_repeat3 4) (np_repeat3 2) = (31, 31, 31)
  /\ stdout (fst (print_network_size get_out_dims int_half_small np_prod_object
                    (mkArgs [0] [1] [4] [2] 1 [1] (1, 64, 64, 64))))
     = [ConvLine 0 1 (64, 64, 64) 1 (31, 31, 31); FCLine 29791 14895].
Proof.
  intros H1 H2 H3. split; [|split].
  - unfold get_out_dims.
    now rewrite !out_dim_floor_div by assumption.
  - vm_compute. reflexivity.
  - vm_compute. reflexivity.
Qed.

Lemma get_out_dims_formula_witness :
  2 <> 0 /\
  get_out_dims (64, 64, 64) (0, 0, 0) (1, 1, 1) (4, 4, 4) (2, 2, 2)
  = ((64 + 2 * 0 - 1 * (4 - 1) - 1) / 2 + 1,
     (64 + 2 * 0 - 1 * (4 - 1) - 1) / 2 + 1,
     (64 + 2 * 0 - 1 * (4 - 1) - 1) / 2 + 1).
Proof.
  split; [lia|].
  apply (get_out_dims_formula 64 64 64 0 0 0 1 1 1 4 4 4 2 2 2); lia.
Defined.

(** *** Broadcasting of the per-layer vectors (C4) *)




(** *** Channel counts (C5) *)



(** *** The size of the first fully connected layer (C6) *)

(** C6: the walk reports a count that is not the product of the final
    sizes times the final channels.  With no convolutional layer the
    final sizes are the initial ones; for three extents of 2^31 (each
    fits 64 bits, so the array is an [int64] one) their product, 2^93,
    is beyond the 64-bit integers in which [np.prod] multiplies, and the
    walk reports 0 features, where the channel count beside it is
    multiplied in unbounded Python integers. *)
Lemma fc_wraps_at_64_bits :
  fits_int64_3 (initial_dims args_no_layers_huge) = true /\
  (forall wide,
     print_network_size get_out_dims int_half_small wide args_no_layers_huge
     = (mkWalk [(2147483648, 2147483648, 2147483648)] [1] [FCLine 0 0], None))
  /\ 2147483648 * 2147483648 * 2147483648 * 1 <> 0.
Proof.
  split; [reflexivity|]. split; [intros wide; vm_compute; reflexivity|lia].
Qed.

(** ** Further properties of the walk *)

(** The printed layers form a chain from the shape [(c, d)]: every layer
    line starts from the channels and sizes the line before it ended
    with. *)
Fixpoint chained (c : Z) (d : Vec3) (lines : list Line) : Prop :=
  match lines with
  | [] => True
  | ConvLine _ c_in idims c_out dims :: rest =>
    c_in = c /\ idims = d /\ chained c_out dims rest
  | FCLine _ _ :: rest => chained c d rest
  end.

(** The shape the printed layers end with, starting from [(c, d)]. *)
Fixpoint final_shape (c : Z) (d : Vec3) (lines : list Line) : Z * Vec3 :=
  match lines with
  | [] => (c, d)
  | ConvLine _ _ _ c_out dims :: rest => final_shape c_out dims rest
  | FCLine _ _ :: rest => final_shape c d rest
  end.

Definition in_int16_3 (v : Vec3) : Prop :=
  let '(a, b, c) := v in in_int16 a /\ in_int16 b /\ in_int16 c.

Lemma astype_int16_fixed (v : Z) : astype_int16 v = v <-> in_int16 v.
Proof.
  split; [|apply astype_int16_id].
  intros H. rewrite <- H. apply astype_int16_range.
Qed.

Lemma astype_int16_3_fixed (v : Vec3) : astype_int16_3 v = v <-> in_int16_3 v.
Proof.
  destruct v as [[a b] c]. simpl. split.
  - intros H. injection H as Ha Hb Hc.
    repeat split; apply astype_int16_fixed; assumption.
  - intros (Ha & Hb & Hc).
    now rewrite (astype_int16_id a Ha), (astype_int16_id b Hb),
      (astype_int16_id c Hc).
Qed.

Lemma astype_int16_3_range (v : Vec3) : in_int16_3 (astype_int16_3 v).
Proof.
  destruct v as [[a b] c]. simpl. repeat split; apply astype_int16_range.
Qed.

Lemma chained_app (c : Z) (d : Vec3) (a b : list Line) :
  chained c d a ->
  chained (fst (final_shape c d a)) (snd (final_shape c d a)) b ->
  chained c d (a ++ b).
Proof.
  revert c d. induction a as [|l a IH]; intros c d Ha Hb; [exact Hb|].
  destruct l as [i c_in idims c_out dims|fc half]; simpl in *.
  - destruct Ha as (H1 & H2 & H3). auto.
  - auto.
Qed.

Lemma final_shape_app (c : Z) (d : Vec3) (a b : list Line) :
  final_shape c d (a ++ b)
  = final_shape (fst (final_shape c d a)) (snd (final_shape c d a)) b.
Proof.
  revert c d. induction a as [|l a IH]; intros c d; [reflexivity|].
  destruct l; simpl; apply IH.
Qed.

(** The sizes a chain of layer lines ends with are cast values, unless
    the chain is empty. *)
Lemma final_shape_int16 (lines : list Line) :
  forall c d,
  Forall (fun l => match l with
                   | ConvLine _ _ _ _ dims => exists v, dims = astype_int16_3 v
                   | FCLine _ _ => False
                   end) lines ->
  lines <> [] ->
  exists v, snd (final_shape c d lines) = astype_int16_3 v.
Proof.
  induction lines as [|l rest IH]; intros c d Hall Hne; [congruence|].
  inversion Hall as [|? ? Hl Hrest]; subst.
  destruct l as [i c_in idims c_out dims|fc half]; [|contradiction].
  simpl. destruct rest as [|l' rest'].
  - simpl. exact Hl.
  - apply IH; [exact Hrest|discriminate].
Qed.

Section WalkChain.

Variable out_dims : Vec3 -> Vec3 -> Vec3 -> Vec3 -> Vec3 -> Vec3.
Variables pad dil ker str fil : list Z.

(** The lines the loop prints are chained from the shape it starts with,
    and at a normal end its last channels and sizes are the shape the
    printed lines end with. *)
Lemma conv_loop_chain (idx : list nat) :
  forall w,
  exists done,
    stdout (fst (conv_loop out_dims pad dil ker str fil idx w))
    = stdout w ++ done /\
    chained (last (n_channels w) 0) (last (conv_layer_sizes w) (0, 0, 0))
            done /\
    (snd (conv_loop out_dims pad dil ker str fil idx w) = None ->
     final_shape (last (n_channels w) 0)
                 (last (conv_layer_sizes w) (0, 0, 0)) done
     = (last (n_channels
                (fst (conv_loop out_dims pad dil ker str fil idx w))) 0,
        last (conv_layer_sizes
                (fst (conv_loop out_dims pad dil ker str fil idx w)))
             (0, 0, 0))).
Proof.
  induction idx as [|i rest IH]; intros w.
  - exists []. simpl. rewrite app_nil_r. auto.
  - simpl conv_loop.
    destruct (layer_step_cases out_dims pad dil ker str fil i w)
      as [(p & d & k & s & f & _ & _ & _ & _ & _ & Hstep)
         |(_ & Herr & Hout)].
    + cbv zeta in Hstep. rewrite Hstep.
      set (w1 := mkWalk _ _ _).
      destruct (IH w1) as (done & D1 & D2 & D3).
      unfold w1 in D2, D3. simpl n_channels in D2, D3.
      simpl conv_layer_sizes in D2, D3. rewrite !last_snoc in D2, D3.
      eexists (ConvLine _ _ _ _ _ :: done).
      split; [rewrite D1; unfold w1; simpl; now rewrite <- app_assoc|].
      split; [simpl; auto|].
      intros Hn. simpl. now apply D3.
    + destruct (layer_step out_dims pad dil ker str fil i w) as [w' [e|]];
        simpl in Herr, Hout; [|discriminate].
      exists []. simpl. rewrite app_nil_r. repeat split; auto. discriminate.
Qed.

End WalkChain.

Section WalkMore.

Variable out_dims : Vec3 -> Vec3 -> Vec3 -> Vec3 -> Vec3 -> Vec3.
Variable int_half : Z -> Z.
Variable np_prod_wide : Vec3 -> Z.

Local Abbreviation walk := (print_network_size out_dims int_half np_prod_wide).

(** A negative layer count: [np.repeat] refuses it when a vector has one
    value; otherwise nothing is repeated, the loop has no turn and the
    walk goes straight to the count of the fully connected layers, for
    the initial shape: it prints that one line, or nothing when the count
    is too large to be halved as a float. *)
Theorem negative_layer_count (args : Args) :
  conv_layers args < 0 ->
  (List.length (padding args) = 1%nat \/
   List.length (dilation args) = 1%nat \/
   List.length (kernel_size args) = 1%nat \/
   List.length (stride args) = 1%nat ->
   walk args = (empty_walk, Some ValueError)) /\
  (List.length (padding args) <> 1%nat ->
   List.length (dilation args) <> 1%nat ->
   List.length (kernel_size args) <> 1%nat ->
   List.length (stride args) <> 1%nat ->
   walk args
   = if float_overflows (int_np_prod np_prod_wide (initial_dims args)
                         * initial_channels args)
     then (mkWalk [initial_dims args] [initial_channels args] [],
           Some OverflowError)
     else (mkWalk [initial_dims args] [initial_channels args]
             [FCLine (int_np_prod np_prod_wide (initial_dims args)
                      * initial_channels args)
                     (int_half (int_np_prod np_prod_wide (initial_dims args)
                                * initial_channels args))],
           None)).
Proof.
  intros Hn.
  assert (Hrep : forall v, List.length v = 1%nat ->
                           broadcast v (conv_layers args) = inl ValueError).
  { intros v Hv. unfold broadcast, np_repeat. rewrite Hv. simpl.
    destruct (Z.ltb_spec (conv_layers args) 0); [reflexivity|lia]. }
  assert (Hkeep : forall v, List.length v <> 1%nat ->
                            broadcast v (conv_layers args) = inr v)
    by (intros v Hv; now apply broadcast_as_is).
  unfold print_network_size, initial_dims, initial_channels.
  destruct (debug_size args) as [[[t x] y] z].
  split.
  - intros H.
    destruct (Nat.eq_dec (List.length (padding args)) 1) as [P|P];
      [now rewrite (Hrep _ P)|rewrite (Hkeep _ P)].
    destruct (Nat.eq_dec (List.length (dilation args)) 1) as [D|D];
      [now rewrite (Hrep _ D)|rewrite (Hkeep _ D)].
    destruct (Nat.eq_dec (List.length (kernel_size args)) 1) as [K|K];
      [now rewrite (Hrep _ K)|rewrite (Hkeep _ K)].
    destruct (Nat.eq_dec (List.length (stride args)) 1) as [S1|S1];
      [now rewrite (Hrep _ S1)|tauto].
  - intros P D K S1.
    rewrite (Hkeep _ P), (Hkeep _ D), (Hkeep _ K), (Hkeep _ S1).
    replace (Z.to_nat (conv_layers args)) with 0%nat by lia.
    reflexivity.
Qed.

(** Whatever the arguments, the layer lines printed are chained from the
    initial shape, and when the line of the fully connected layers is
    printed its count is the product of the sizes the last printed layer
    ended with, as NumPy takes it, times the channels it ended with; with
    at least one layer printed that product is the exact one. *)
Theorem printed_layers_are_chained (args : Args) :
  chained (initial_channels args) (initial_dims args)
          (stdout (fst (walk args))) /\
  forall convs fc half,
    stdout (fst (walk args)) = convs ++ [FCLine fc half] ->
    fc = int_np_prod np_prod_wide
           (snd (final_shape (initial_channels args)
                             (initial_dims args) convs))
         * fst (final_shape (initial_channels args) (initial_dims args) convs)
    /\ (convs <> [] ->
        fc = volume (snd (final_shape (initial_channels args)
                                      (initial_dims args) convs))
             * fst (final_shape (initial_channels args)
                                (initial_dims args) convs)).
Proof.
  unfold print_network_size, initial_dims, initial_channels.
  destruct (debug_size args) as [[[t x] y] z].
  destruct (broadcast (padding args) _) as [e|pad];
    [split; [exact I|intros [|? ?] ? ? H; discriminate]|].
  destruct (broadcast (dilation args) _) as [e|dil];
    [split; [exact I|intros [|? ?] ? ? H; discriminate]|].
  destruct (broadcast (kernel_size args) _) as [e|ker];
    [split; [exact I|intros [|? ?] ? ? H; discriminate]|].
  destruct (broadcast (stride args) _) as [e|str];
    [split; [exact I|intros [|? ?] ? ? H; discriminate]|].
  destruct (conv_loop_chain out_dims pad dil ker str (filters args)
              (seq 0 (Z.to_nat (conv_layers args)))
              (mkWalk [(x, y, z)] [t] [])) as (done & D1 & D2 & D3).
  destruct (conv_loop_spec out_dims pad dil ker str (filters args)
              (seq 0 (Z.to_nat (conv_layers args)))
              (mkWalk [(x, y, z)] [t] []))
    as (done' & E1 & E2 & E3 & _).
  simpl in D1, D2, D3, E1. rewrite D1 in E1. subst done'.
  assert (Hconv : forall l, In l done -> exists i a b c d, l = ConvLine i a b c d).
  { intros l Hl.
    assert (Hi : In (line_index l) (map line_index done)) by now apply in_map.
    rewrite E3 in Hi. apply in_map_iff in Hi. destruct Hi as (j & Hj & _).
    destruct l as [i a b c d|fc half]; [now exists i, a, b, c, d|].
    simpl in Hj. lia. }
  assert (Hcast : Forall (fun l => match l with
                    | ConvLine _ _ _ _ dims => exists v, dims = astype_int16_3 v
                    | FCLine _ _ => False
                    end) done).
  { rewrite Forall_forall in *. intros l Hl.
    destruct (Hconv _ Hl) as (i & a & b & c & d & ->).
    destruct (E2 _ Hl) as (p & q & k & s & f & _ & _ & _ & _ & _ & Hd & _).
    eexists. exact Hd. }
  assert (Hnofc : forall convs fc half, done <> convs ++ [FCLine fc half]).
  { intros convs fc half H.
    assert (Hin : In (FCLine fc half) done)
      by (rewrite H; apply in_or_app; right; now left).
    destruct (Hconv _ Hin) as (i & a & b & c & d & Hq). discriminate. }
  destruct (conv_loop _ _ _ _ _ _ _ _) as [w [e|]]; simpl in D1.
  - simpl. rewrite D1. split; [exact D2|].
    intros convs fc half H. exfalso. exact (Hnofc _ _ _ H).
  - specialize (D3 eq_refl). simpl in D3.
    unfold report_fc.
    destruct (float_overflows (fc_of np_prod_wide w)); simpl; rewrite D1.
    + split; [exact D2|].
      intros convs fc half H. exfalso. exact (Hnofc _ _ _ H).
    + split; [apply chained_app; [exact D2|]; simpl; exact I|].
      intros convs fc half H.
      apply app_inj_tail in H. destruct H as (<- & H).
      injection H as <- _. rewrite D3. simpl. unfold fc_of.
      split; [reflexivity|].
      intros Hne.
      destruct (final_shape_int16 done t (x, y, z) Hcast Hne) as (v & Hv).
      rewrite D3 in Hv. simpl in Hv. rewrite Hv.
      now rewrite int_np_prod_int16.
Qed.

(** Every output size the walk prints is a 16-bit value: it is the size
    function's result for the layer, cast, and it is that result itself
    exactly when the result fits 16 bits on every axis. *)
Theorem printed_sizes_fit_16_bits (args : Args)
    (i c_in : Z) (idims : Vec3) (c_out : Z) (dims : Vec3) :
  0 <= conv_layers args ->
  In (ConvLine i c_in idims c_out dims) (stdout (fst (walk args))) ->
  dims = astype_int16_3
           (out_dims idims
                     (np_repeat3 (pick (padding args) (Z.to_nat i)))
                     (np_repeat3 (pick (dilation args) (Z.to_nat i)))
                     (np_repeat3 (pick (kernel_size args) (Z.to_nat i)))
                     (np_repeat3 (pick (stride args) (Z.to_nat i)))) /\
  in_int16_3 dims /\
  (dims = out_dims idims
                   (np_repeat3 (pick (padding args) (Z.to_nat i)))
                   (np_repeat3 (pick (dilation args) (Z.to_nat i)))
                   (np_repeat3 (pick (kernel_size args) (Z.to_nat i)))
                   (np_repeat3 (pick (stride args) (Z.to_nat i)))
   <-> in_int16_3
         (out_dims idims
                   (np_repeat3 (pick (padding args) (Z.to_nat i)))
                   (np_repeat3 (pick (dilation args) (Z.to_nat i)))
                   (np_repeat3 (pick (kernel_size args) (Z.to_nat i)))
                   (np_repeat3 (pick (stride args) (Z.to_nat i))))).
Proof.
  intros Hn Hin.
  destruct (print_network_size_outcome out_dims int_half np_prod_wide args Hn)
    as (convs & _ & Hall & Hout).
  assert (Hc : In (ConvLine i c_in idims c_out dims) convs).
  { destruct (_ <? _)%nat.
    - destruct Hout as (_ & Hs). now rewrite Hs in Hin.
    - destruct (float_overflows _).
      + destruct Hout as (_ & Hs). now rewrite Hs in Hin.
      + destruct Hout as (_ & Hs). rewrite Hs in Hin.
        apply in_app_or in Hin. destruct Hin as [H|[H|[]]];
          [exact H|discriminate]. }
  rewrite Forall_forall in Hall.
  destruct (Hall _ Hc) as (c & id & Heq).
  unfold conv_line in Heq. simpl line_index in Heq.
  injection Heq as _ -> -> _ Hd.
  split; [exact Hd|]. split; [rewrite Hd; apply astype_int16_3_range|].
  rewrite Hd at 1. apply astype_int16_3_fixed.
Qed.



End WalkMore.

Definition args_negative_layers : Args :=
  mkArgs [0] [1; 1] [3; 3] [1; 1] (-1) [2] (1, 8, 8, 8).


Lemma negative_layer_count_witness :
  conv_layers args_negative_layers < 0 /\
  print_network_size get_out_dims int_half_small np_prod_object
                     args_negative_layers
  = (empty_walk, Some ValueError).
Proof.
  assert (H : conv_layers args_negative_layers < 0) by (simpl; lia).
  split; [exact H|].
  apply (negative_layer_count get_out_dims int_half_small np_prod_object
           args_negative_layers H).
  left. reflexivity.
Defined.

Lemma printed_sizes_fit_16_bits_witness :
  in_int16_3 (31, 31, 31).
Proof.
  assert (Hn : 0 <= conv_layers args_three_layers) by (simpl; lia).
  assert (Hin : In (ConvLine 0 2 (64, 64, 64) 8 (31, 31, 31))
                   (stdout (fst (print_network_size get_out_dims
                                   int_half_small np_prod_object
                                   args_three_layers))))
    by (vm_compute; left; reflexivity).
  destruct (printed_sizes_fit_16_bits get_out_dims int_half_small
              np_prod_object
              args_three_layers 0 2 (64, 64, 64) 8 (31, 31, 31) Hn Hin)
    as (_ & H & _).
  exact H.
Defined.



End Geometry.

Module Training.

(** ** Python and library pieces *)

(** [a % b] on Python integers: the remainder has the sign of the divisor
    and a zero divisor raises. *)
Definition py_mod (a b : Z) : PyError + Z :=
  if b =? 0 then inl ZeroDivisionError else inr (a mod b).

(** ['{}'.format(n)] for a natural number. *)
Definition format_nat (n : nat) : string :=
  NilEmpty.string_of_uint (Nat.to_uint n).

Fixpoint ends_with_slash (s : string) : bool :=
  match s with
  | EmptyString => false
  | String c EmptyString => Ascii.eqb c "/"%char
  | String _ r => ends_with_slash r
  end.

(** [os.path.join(a, b)] for a relative [b]. *)
Definition os_path_join (a b : string) : string :=
  match a with
  | EmptyString => b
  | _ => if ends_with_slash a then (a ++ b)%string
         else (a ++ "/" ++ b)%string
  end.

(** ['epoch-{}.dat'.format(i+1)] *)
Definition checkpoint_name (i : nat) : string :=
  ("epoch-" ++ format_nat (i + 1) ++ ".dat")%string.

Section Controller.

(** The model, the optimizer, the scheduler, a batch [(x, label)], a loss
    function and the floating-point losses are those of the host
    libraries; the controller is stated for any of them.  Their calls are
    taken to return: a failure inside them would end the run where it
    happens, with the trace as it is then. *)
Variables Net Optim Sched Batch Loss F : Type.

(** [0.0], [total_loss + v], [total_loss / n] for a positive integer [n],
    and [np.mean]. *)
Variable f_zero : F.
Variable f_add : F -> F -> F.
Variable f_div_int : F -> Z -> F.
Variable np_mean : list F -> F.

(** [torch.nn.MSELoss()] and [torch.optim.Adam(x.parameters(), lr=...)] *)
Variable MSELoss : Loss.
Variable Adam : Net -> Q -> Optim.

(** [model.cuda().float()] or [model.float()], and [x.cuda()],
    [label.cuda()] on a batch. *)
Variable to_float : bool -> Net -> Net.
Variable to_device : bool -> Batch -> Batch.

(** [y = model(x); loss = loss_func(y, label.view(-1,1));
    float(loss.item())]: the loss value, and the model after the call. *)
Variable forward_loss : Loss -> Net -> Batch -> Net * F.

(** [model_optimizer.zero_grad(); loss.backward(); model_optimizer.step()] *)
Variable backward_step : Loss -> Optim -> Net -> Batch -> Optim * Net.

(** [model_scheduler.step()] *)
Variable scheduler_step : Sched -> Optim -> Sched * Optim.

(** [datetime.now().strftime('%Y-%m-%d_%H-%M-%S')] *)
Variable now : string.

(** What a run does that can be seen from outside, oldest first.  A
    progress line is kept as the three values given to [desc_genr] (the
    training loss is [None] for the literal [0] of the opening line);
    [Evaluated] records the assignment [test_loss = total_loss/(index+1)]
    with its two operands. *)
Inductive Event : Type :=
| Makedirs (folder : string)
| SchedulerStep (i : nat)
| Description (i : nat) (test_loss : F) (train_loss : option F)
| Evaluated (i : nat) (total_loss : F) (divisor : Z)
| Saved (path : string) (model : Net).

(** The locals of [train] that change during the run.  [index] is the
    loop variable shared by the two [enumerate] loops: it is unbound
    until one of them has had a batch. *)
Record State : Type := mkState {
  net : Net;
  optim : Optim;
  sched : option Sched;
  test_loss : F;
  index : option nat;
  trace : list Event
}.

(** The arguments that stay fixed during the run. *)
Record Config : Type := mkConfig {
  loss_func : Loss;
  cuda : bool;
  silent : bool;
  update_freq : Z;
  save_freq : Z;
  savepath : option string;
  train_data_loader : nat -> list Batch;   (* the batches of the pass of epoch i *)
  test_data_loader : nat -> list Batch
}.

Definition emit (e : Event) (st : State) : State :=
  mkState (net st) (optim st) (sched st) (test_loss st) (index st)
          (trace st ++ [e]).

(** What tqdm shows: nothing when disabled. *)
Definition show (cfg : Config) (e : Event) (st : State) : State :=
  if silent cfg then st else emit e st.

(** [if model_scheduler is not None: model_scheduler.step()] *)
Definition step_scheduler (i : nat) (st : State) : State :=
  match sched st with
  | None => st
  | Some s =>
    let '(s', o') := scheduler_step s (optim st) in
    mkState (net st) o' (Some s') (test_loss st) (index st)
            (trace st ++ [SchedulerStep i])
  end.

(** [for index, batch in enumerate(data_iterator)]: the batches from
    position [k] on, [train_loss] being the losses so far. *)
Fixpoint train_batches (cfg : Config) (i k : nat) (bs : list Batch)
    (train_loss : list F) (st : State) : State :=
  match bs with
  | [] => st
  | batch :: rest =>
    let b := to_device (cuda cfg) batch in
    let '(net1, loss_value) := forward_loss (loss_func cfg) (net st) b in
    let train_loss' := train_loss ++ [loss_value] in
    let '(o', net2) := backward_step (loss_func cfg) (optim st) net1 b in
    let st' := mkState net2 o' (sched st) (test_loss st) (Some k) (trace st) in
    train_batches cfg i (S k) rest train_loss'
      (show cfg (Description i (test_loss st) (Some (np_mean train_loss'))) st')
  end.

(** [for index, batch in enumerate(test_data_loader)]: the batches from
    position [k] on, returning the total loss as well. *)
Fixpoint test_batches (cfg : Config) (k : nat) (bs : list Batch)
    (total_loss : F) (st : State) : F * State :=
  match bs with
  | [] => (total_loss, st)
  | batch :: rest =>
    let b := to_device (cuda cfg) batch in
    let '(net1, loss_value) := forward_loss (loss_func cfg) (net st) b in
    let st' := mkState net1 (optim st) (sched st) (test_loss st) (Some k)
                       (trace st) in
    test_batches cfg (S k) rest (f_add total_loss loss_value) st'
  end.

(** The body of [if (i+1)%update_freq==0:]. *)
Definition evaluate (cfg : Config) (i : nat) (st : State)
  : State * option PyError :=
  let '(total_loss, st1) := test_batches cfg 0 (test_data_loader cfg i) f_zero st in
  match index st1 with
  | None => (st1, Some UnboundLocalError)
  | Some k =>
    let divisor := Z.of_nat k + 1 in
    (mkState (net st1) (optim st1) (sched st1) (f_div_int total_loss divisor)
             (index st1) (trace st1 ++ [Evaluated i total_loss divisor]),
     None)
  end.

(** [if (i+1)%save_freq==0 and savepath is not None: torch.save(...)];
    the modulo is evaluated first. *)
Definition checkpoint (cfg : Config) (save_folder : option string) (i : nat)
    (st : State) : State * option PyError :=
  match py_mod (Z.of_nat i + 1) (save_freq cfg) with
  | inl e => (st, Some e)
  | inr m =>
    if m =? 0 then
      match savepath cfg, save_folder with
      | Some _, Some folder =>
        (emit (Saved (os_path_join folder (checkpoint_name i)) (net st)) st, None)
      | _, _ => (st, None)
      end
    else (st, None)
  end.

(** The first part of a turn: the scheduler step, the opening progress
    line and the pass over the training batches. *)
Definition train_pass (cfg : Config) (i : nat) (st : State) : State :=
  let st1 := step_scheduler i st in
  let st2 := show cfg (Description i (test_loss st1) None) st1 in
  train_batches cfg i 0 (train_data_loader cfg i) [] st2.

(** One turn of [for i in range(0, epochs)]. *)
Definition epoch (cfg : Config) (save_folder : option string) (i : nat)
    (st : State) : State * option PyError :=
  let st3 := train_pass cfg i st in
  match py_mod (Z.of_nat i + 1) (update_freq cfg) with
  | inl e => (st3, Some e)
  | inr m =>
    match (if m =? 0 then evaluate cfg i st3 else (st3, None)) with
    | (st4, Some e) => (st4, Some e)
    | (st4, None) => checkpoint cfg save_folder i st4
    end
  end.

Fixpoint epochs_loop (cfg : Config) (save_folder : option string)
    (idx : list nat) (st : State) : State * option PyError :=
  match idx with
  | [] => (st, None)
  | i :: rest =>
    match epoch cfg save_folder i st with
    | (st', None) => epochs_loop cfg save_folder rest st'
    | (st', Some e) => (st', Some e)
    end
  end.

(** The learning rate of the default optimizer, [0.000001]. *)
Definition default_lr : Q := 1 # 1000000.

(** [train(train, test, model, epochs, update_freq, savepath, save_freq,
    batch_size, num_workers, cuda, loss_func, optimizer, scheduler,
    silent)]; the two data loaders stand for the datasets with their
    batch size and workers. *)
Definition train (train_loader test_loader : nat -> list Batch) (model : Net)
    (epochs update_freq : Z) (savepath : option string) (save_freq : Z)
    (cuda : bool) (loss_func : option Loss)
    (optimizer : option (Net -> Optim)) (scheduler : option (Net -> Sched))
    (silent : bool) : State * option PyError :=
  let test_loss := f_zero in
  let model := to_float cuda model in
  let loss_func := match loss_func with
                   | None => MSELoss
                   | Some l => l
                   end in
  let optimizer := match optimizer with
                   | None => fun x => Adam x default_lr
                   | Some o => o
                   end in
  let model_optimizer := optimizer model in
  let model_scheduler := match scheduler with
                         | Some s => Some (s model)
                         | None => None
                         end in
  let save_folder := match savepath with
                     | Some p => Some (os_path_join p now)
                     | None => None
                     end in
  let made := match save_folder with
              | Some folder => [Makedirs folder]
              | None => []
              end in
  let cfg := mkConfig loss_func cuda silent update_freq save_freq savepath
                      train_loader test_loader in
  epochs_loop cfg save_folder (seq 0 (Z.to_nat epochs))
    (mkState model model_optimizer model_scheduler test_loss None made).

(** *** Reading a trace *)

Definition evaluated_epochs (t : list Event) : list nat :=
  flat_map (fun e => match e with Evaluated i _ _ => [i] | _ => [] end) t.

Definition eval_divisors (t : list Event) : list (nat * Z) :=
  flat_map (fun e => match e with Evaluated i _ d => [(i, d)] | _ => [] end) t.

Definition saved_paths (t : list Event) : list string :=
  flat_map (fun e => match e with Saved p _ => [p] | _ => [] end) t.

Definition scheduler_steps (t : list Event) : list nat :=
  flat_map (fun e => match e with SchedulerStep i => [i] | _ => [] end) t.

Definition is_description (e : Event) : Prop :=
  match e with Description _ _ _ => True | _ => False end.

(** A progress line of epoch [i] showing the test loss [tl]. *)
Definition line_of (i : nat) (tl : F) (e : Event) : Prop :=
  exists m, e = Description i tl m.

(** The evaluation gate of epoch [i] (0-based) opens. *)
Definition fires (freq : Z) (i : nat) : bool :=
  match py_mod (Z.of_nat i + 1) freq with
  | inr m => m =? 0
  | inl _ => false
  end.

(** The total loss of a pass over the test batches of epoch [i]. *)
Definition test_pass_total (cfg : Config) (i : nat) (st : State) : F :=
  fst (test_batches cfg 0 (test_data_loader cfg i) f_zero st).

(** The loss values of a forward-only pass over [bs] from the model [n]:
    each batch is moved to the device and run through the model as the
    batch before it left it; no gradient step is made. *)
Fixpoint forward_losses (cfg : Config) (bs : list Batch) (n : Net) : list F :=
  match bs with
  | [] => []
  | batch :: rest =>
    let '(n1, v) := forward_loss (loss_func cfg) n
                                 (to_device (cuda cfg) batch) in
    v :: forward_losses cfg rest n1
  end.

(** The values [vs] added one after the other to [0.0]. *)
Definition sum_losses (vs : list F) : F := fold_left f_add vs f_zero.

(** No evaluation gate opens before epoch [i]. *)
Definition quiet_before (freq : Z) (i : nat) : Prop :=
  forall j, (j < i)%nat -> fires freq j = false.

(** The value of [index] after [for index, batch in enumerate(bs)]. *)
Definition counter_after (bs : list Batch) (before : option nat) : option nat :=
  match bs with
  | [] => before
  | _ :: _ => Some (List.length bs - 1)%nat
  end.

(** The value of [index] when epoch [i] divides its total test loss. *)
Definition counter_at_division (cfg : Config) (i : nat) (st : State)
  : option nat :=
  counter_after (test_data_loader cfg i)
                (counter_after (train_data_loader cfg i) (index st)).

Definition sched_events (i : nat) (st : State) : list Event :=
  match sched st with
  | Some _ => [SchedulerStep i]
  | None => []
  end.

(** *** The two batch loops *)

Lemma line_of_description (i : nat) (tl : F) (l : list Event) :
  Forall (line_of i tl) l -> Forall is_description l.
Proof.
  apply Forall_impl. intros e (m & ->). exact I.
Qed.

Lemma descriptions_not_evaluated (l : list Event) :
  Forall is_description l ->
  evaluated_epochs l = [] /\ eval_divisors l = [] /\ saved_paths l = [] /\
  scheduler_steps l = [].
Proof.
  induction 1 as [|e l He _ IH]; [repeat split|].
  destruct e; try contradiction. simpl. exact IH.
Qed.

Lemma show_spec (cfg : Config) (e : Event) (st : State) :
  net (show cfg e st) = net st /\ optim (show cfg e st) = optim st /\
  sched (show cfg e st) = sched st /\
  test_loss (show cfg e st) = test_loss st /\
  index (show cfg e st) = index st /\
  trace (show cfg e st)
  = trace st ++ (if silent cfg then [] else [e]).
Proof.
  unfold show. destruct (silent cfg); simpl; rewrite ?app_nil_r; auto 6.
Qed.

(** The training loop prints progress lines of its epoch with the stored
    test loss, leaves the stored test loss and the scheduler alone, and
    leaves [index] at its last position. *)
Lemma train_batches_spec (cfg : Config) (i : nat) (bs : list Batch) :
  forall k losses st,
  exists lines,
    trace (train_batches cfg i k bs losses st) = trace st ++ lines /\
    Forall (line_of i (test_loss st)) lines /\
    List.length lines = (if silent cfg then 0 else List.length bs)%nat /\
    test_loss (train_batches cfg i k bs losses st) = test_loss st /\
    sched (train_batches cfg i k bs losses st) = sched st /\
    index (train_batches cfg i k bs losses st)
    = match bs with
      | [] => index st
      | _ :: _ => Some (k + List.length bs - 1)%nat
      end.
Proof.
  induction bs as [|b rest IH]; intros k losses st.
  - exists []. simpl. rewrite app_nil_r. destruct (silent cfg); auto 6.
  - simpl train_batches.
    destruct (forward_loss _ _ _) as [net1 v].
    destruct (backward_step _ _ _ _) as [o' net2].
    set (st' := mkState net2 o' (sched st) (test_loss st) (Some k) (trace st)).
    set (e := Description i (test_loss st) (Some (np_mean (losses ++ [v])))).
    destruct (show_spec cfg e st') as (_ & _ & Hs & Ht & Hi & Htr).
    destruct (IH (S k) (losses ++ [v]) (show cfg e st'))
      as (lines & H1 & H2 & H3 & H4 & H5 & H6).
    rewrite Ht in H2, H4. rewrite Hs in H5. rewrite Htr in H1.
    simpl in H1, H2, H4, H5.
    exists ((if silent cfg then [] else [e]) ++ lines).
    split; [now rewrite H1, app_assoc|].
    split.
    { apply Forall_app. split; [|exact H2].
      destruct (silent cfg); constructor; [|constructor].
      now exists (Some (np_mean (losses ++ [v]))). }
    split.
    { rewrite length_app, H3. destruct (silent cfg); reflexivity. }
    split; [exact H4|]. split; [exact H5|].
    rewrite H6. destruct rest as [|b' rest'].
    + rewrite Hi. simpl. f_equal. lia.
    + simpl. f_equal. lia.
Qed.

(** The evaluation loop shows nothing, keeps the stored test loss, the
    optimizer and the scheduler, and leaves [index] at its last position,
    or where it was when there is no batch. *)
Lemma test_batches_spec (cfg : Config) (bs : list Batch) :
  forall k total st,
  trace (snd (test_batches cfg k bs total st)) = trace st /\
  test_loss (snd (test_batches cfg k bs total st)) = test_loss st /\
  sched (snd (test_batches cfg k bs total st)) = sched st /\
  optim (snd (test_batches cfg k bs total st)) = optim st /\
  index (snd (test_batches cfg k bs total st))
  = match bs with
    | [] => index st
    | _ :: _ => Some (k + List.length bs - 1)%nat
    end.
Proof.
  induction bs as [|b rest IH]; intros k total st; [simpl; auto|].
  simpl test_batches.
  destruct (forward_loss _ _ _) as [net1 v].
  set (st' := mkState net1 (optim st) (sched st) (test_loss st) (Some k)
                      (trace st)).
  destruct (IH (S k) (f_add total v) st') as (H1 & H2 & H3 & H4 & H5).
  repeat split; auto.
  rewrite H5. destruct rest; simpl; f_equal; lia.
Qed.

(** The total the test loop returns is the sum, in order, of the loss
    values of a forward-only pass from the model it starts with. *)
Lemma test_batches_total (cfg : Config) (bs : list Batch) :
  forall k total st,
  fst (test_batches cfg k bs total st)
  = fold_left f_add (forward_losses cfg bs (net st)) total.
Proof.
  induction bs as [|b rest IH]; intros k total st; [reflexivity|].
  simpl test_batches. simpl forward_losses.
  destruct (forward_loss _ _ _) as [net1 v].
  rewrite IH. reflexivity.
Qed.

Lemma test_pass_total_sum (cfg : Config) (i : nat) (st : State) :
  test_pass_total cfg i st
  = sum_losses (forward_losses cfg (test_data_loader cfg i) (net st)).
Proof. unfold test_pass_total, sum_losses. apply test_batches_total. Qed.

(** *** One epoch *)

Lemma step_scheduler_spec (i : nat) (st : State) :
  trace (step_scheduler i st) = trace st ++ sched_events i st /\
  test_loss (step_scheduler i st) = test_loss st /\
  index (step_scheduler i st) = index st /\
  (sched (step_scheduler i st) = None <-> sched st = None).
Proof.
  unfold step_scheduler, sched_events.
  destruct (sched st) as [s|] eqn:E.
  - destruct (scheduler_step s (optim st)) as [s' o']. simpl.
    repeat split; intros; discriminate.
  - rewrite app_nil_r. rewrite E. repeat split; auto.
Qed.

(** The evaluation divides the total of the pass by [index + 1], whatever
    loop bound [index] last. *)
Lemma evaluate_spec (cfg : Config) (i : nat) (st : State) :
  sched (fst (evaluate cfg i st)) = sched st /\
  match counter_after (test_data_loader cfg i) (index st) with
  | None =>
    snd (evaluate cfg i st) = Some UnboundLocalError /\
    trace (fst (evaluate cfg i st)) = trace st /\
    test_loss (fst (evaluate cfg i st)) = test_loss st
  | Some k =>
    snd (evaluate cfg i st) = None /\
    trace (fst (evaluate cfg i st))
    = trace st ++ [Evaluated i (test_pass_total cfg i st) (Z.of_nat k + 1)] /\
    test_loss (fst (evaluate cfg i st))
    = f_div_int (test_pass_total cfg i st) (Z.of_nat k + 1) /\
    index (fst (evaluate cfg i st)) = Some k
  end.
Proof.
  unfold evaluate, test_pass_total, counter_after.
  destruct (test_batches_spec cfg (test_data_loader cfg i) 0 f_zero st)
    as (H1 & H2 & H3 & _ & H5).
  destruct (test_batches cfg 0 (test_data_loader cfg i) f_zero st)
    as [total st1]. simpl in *.
  assert (Hidx : index st1
                 = match test_data_loader cfg i with
                   | [] => index st
                   | _ :: _ => Some (List.length (test_data_loader cfg i) - 1)%nat
                   end).
  { rewrite H5. destruct (test_data_loader cfg i); reflexivity. }
  rewrite <- Hidx.
  destruct (index st1) as [k|]; simpl; rewrite ?H1; auto.
Qed.

Lemma checkpoint_spec (cfg : Config) (folder : option string) (i : nat)
    (st : State) :
  sched (fst (checkpoint cfg folder i st)) = sched st /\
  test_loss (fst (checkpoint cfg folder i st)) = test_loss st /\
  exists saves,
    trace (fst (checkpoint cfg folder i st)) = trace st ++ saves /\
    match py_mod (Z.of_nat i + 1) (save_freq cfg) with
    | inl e => snd (checkpoint cfg folder i st) = Some e /\ saves = []
    | inr m =>
      snd (checkpoint cfg folder i st) = None /\
      saves = if m =? 0
              then match savepath cfg, folder with
                   | Some _, Some f =>
                     [Saved (os_path_join f (checkpoint_name i)) (net st)]
                   | _, _ => []
                   end
              else []
    end.
Proof.
  unfold checkpoint.
  destruct (py_mod _ _) as [e|m].
  - split; [reflexivity|split; [reflexivity|]].
    exists []. now rewrite app_nil_r.
  - destruct (m =? 0).
    + destruct (savepath cfg), folder; simpl;
        (split; [reflexivity|split; [reflexivity|]]);
        try (exists []; now rewrite app_nil_r).
      eexists. split; [reflexivity|split; reflexivity].
    + split; [reflexivity|split; [reflexivity|]].
      exists []. now rewrite app_nil_r.
Qed.

Lemma train_pass_spec (cfg : Config) (i : nat) (st : State) :
  exists lines,
    trace (train_pass cfg i st) = trace st ++ sched_events i st ++ lines /\
    Forall (line_of i (test_loss st)) lines /\
    List.length lines
    = (if silent cfg then 0 else S (List.length (train_data_loader cfg i)))%nat /\
    test_loss (train_pass cfg i st) = test_loss st /\
    (sched (train_pass cfg i st) = None <-> sched st = None) /\
    index (train_pass cfg i st)
    = counter_after (train_data_loader cfg i) (index st).
Proof.
  unfold train_pass.
  destruct (step_scheduler_spec i st) as (S1 & S2 & S3 & S4).
  set (st1 := step_scheduler i st) in *.
  set (e := Description i (test_loss st1) None).
  destruct (show_spec cfg e st1) as (_ & _ & W3 & W4 & W5 & W6).
  destruct (train_batches_spec cfg i (train_data_loader cfg i) 0 []
              (show cfg e st1))
    as (lines & T1 & T2 & T3 & T4 & T5 & T6).
  rewrite W4, S2 in T2, T4. rewrite W3 in T5. rewrite W5, S3 in T6.
  rewrite W6, S1 in T1.
  exists ((if silent cfg then [] else [e]) ++ lines).
  split; [now rewrite T1, <- !app_assoc|].
  split.
  { apply Forall_app. split; [|exact T2].
    destruct (silent cfg); constructor; [|constructor].
    exists None. unfold e. now rewrite S2. }
  split; [rewrite length_app, T3; now destruct (silent cfg)|].
  split; [exact T4|]. split; [now rewrite T5|].
  rewrite T6. unfold counter_after.
  destruct (train_data_loader cfg i); [reflexivity|].
  f_equal; simpl; lia.
Qed.

Lemma fires_zero (i : nat) : fires 0 i = false.
Proof. reflexivity. Qed.

Lemma fires_nonzero (freq : Z) (i : nat) :
  freq <> 0 -> fires freq i = ((Z.of_nat i + 1) mod freq =? 0).
Proof.
  intros H. unfold fires, py_mod.
  destruct (Z.eqb_spec freq 0); [contradiction|reflexivity].
Qed.

(** What a turn adds to the trace: the scheduler step, the progress lines
    (all showing the test loss stored when the turn began), at most one
    evaluation and at most one checkpoint; and how it ends. *)
Lemma epoch_spec (cfg : Config) (folder : option string) (i : nat) (st : State) :
  exists lines evals saves,
    trace (fst (epoch cfg folder i st))
    = trace st ++ sched_events i st ++ lines ++ evals ++ saves /\
    Forall (line_of i (test_loss st)) lines /\
    List.length lines
    = (if silent cfg then 0 else S (List.length (train_data_loader cfg i)))%nat /\
    (sched (fst (epoch cfg folder i st)) = None <-> sched st = None) /\
    ((evals = [] /\ test_loss (fst (epoch cfg folder i st)) = test_loss st) \/
     (fires (update_freq cfg) i = true /\
      exists k, counter_at_division cfg i st = Some k /\
        evals = [Evaluated i (test_pass_total cfg i (train_pass cfg i st))
                           (Z.of_nat k + 1)] /\
        test_loss (fst (epoch cfg folder i st))
        = f_div_int (test_pass_total cfg i (train_pass cfg i st))
                    (Z.of_nat k + 1))) /\
    (saves = [] \/
     (fires (save_freq cfg) i = true /\
      exists p f model, savepath cfg = Some p /\ folder = Some f /\
        saves = [Saved (os_path_join f (checkpoint_name i)) model])) /\
    (fires (update_freq cfg) i = true -> evals = [] ->
     snd (epoch cfg folder i st) = Some UnboundLocalError /\
     counter_at_division cfg i st = None) /\
    match snd (epoch cfg folder i st) with
    | None =>
      (fires (update_freq cfg) i = true -> evals <> []) /\
      (fires (save_freq cfg) i = true ->
       savepath cfg <> None -> folder <> None -> saves <> []) /\
      update_freq cfg <> 0 /\ save_freq cfg <> 0
    | Some ZeroDivisionError =>
      (update_freq cfg = 0 /\ evals = [] /\ saves = []) \/
      (update_freq cfg <> 0 /\ save_freq cfg = 0 /\ saves = [])
    | Some UnboundLocalError =>
      fires (update_freq cfg) i = true /\
      counter_at_division cfg i st = None /\ evals = [] /\ saves = []
    | Some _ => False
    end.
Proof.
  unfold epoch.
  destruct (train_pass_spec cfg i st) as (lines & P1 & P2 & P3 & P4 & P5 & P6).
  set (st3 := train_pass cfg i st) in *.
  exists lines.
  destruct (Z.eqb_spec (update_freq cfg) 0) as [U0|U0].
  { assert (Hmod : py_mod (Z.of_nat i + 1) (update_freq cfg)
                   = inl ZeroDivisionError)
      by (unfold py_mod; rewrite U0; reflexivity).
    rewrite Hmod. exists [], []. simpl. rewrite !app_nil_r.
    unfold fires. rewrite Hmod.
    repeat split; auto; try discriminate; apply P5. }
  assert (Hmod : py_mod (Z.of_nat i + 1) (update_freq cfg)
                 = inr ((Z.of_nat i + 1) mod update_freq cfg)).
  { unfold py_mod. destruct (Z.eqb_spec (update_freq cfg) 0); congruence. }
  rewrite Hmod, (fires_nonzero _ i U0).
  (* the evaluation gate *)
  assert (Hev : exists st4 r evals,
             (if (Z.of_nat i + 1) mod update_freq cfg =? 0
              then evaluate cfg i st3 else (st3, None)) = (st4, r) /\
             trace st4 = trace st3 ++ evals /\
             (sched st4 = None <-> sched st = None) /\
             ((evals = [] /\ test_loss st4 = test_loss st) \/
              ((Z.of_nat i + 1) mod update_freq cfg =? 0) = true /\
              exists k, counter_at_division cfg i st = Some k /\
                evals = [Evaluated i (test_pass_total cfg i st3)
                                   (Z.of_nat k + 1)] /\
                test_loss st4
                = f_div_int (test_pass_total cfg i st3) (Z.of_nat k + 1)) /\
             match r with
             | None =>
               ((Z.of_nat i + 1) mod update_freq cfg =? 0) = true -> evals <> []
             | Some UnboundLocalError =>
               ((Z.of_nat i + 1) mod update_freq cfg =? 0) = true /\
               counter_at_division cfg i st = None /\ evals = []
             | Some _ => False
             end).
  { destruct ((Z.of_nat i + 1) mod update_freq cfg =? 0) eqn:G.
    - destruct (evaluate_spec cfg i st3) as (E0 & E).
      unfold counter_at_division. rewrite <- P6.
      destruct (evaluate cfg i st3) as [st4 r]. simpl in E0, E.
      destruct (counter_after (test_data_loader cfg i) (index st3)) as [k|].
      + destruct E as (-> & E2 & E3 & _).
        exists st4, None, [Evaluated i (test_pass_total cfg i st3)
                                     (Z.of_nat k + 1)].
        split; [reflexivity|]. split; [exact E2|].
        split; [now rewrite E0|]. split; [|discriminate].
        right. split; [reflexivity|]. exists k. auto.
      + destruct E as (-> & E2 & E3).
        exists st4, (Some UnboundLocalError), [].
        rewrite app_nil_r. split; [reflexivity|]. split; [exact E2|].
        split; [now rewrite E0|]. split; [|auto].
        left. split; [reflexivity|]. now rewrite E3.
    - exists st3, None, []. rewrite app_nil_r.
      split; [reflexivity|]. split; [reflexivity|]. split; [exact P5|].
      split; [|discriminate]. left. auto. }
  destruct Hev as (st4 & r & evals & -> & V1 & V2 & V3 & V4).
  exists evals.
  destruct r as [e|].
  { destruct e; try contradiction. destruct V4 as (G & C & ->).
    exists []. simpl. rewrite ?app_nil_r, V1, ?app_nil_r, P1.
    repeat split; auto; try tauto. }
  assert (Hgo : ((Z.of_nat i + 1) mod update_freq cfg =? 0) = true ->
                evals <> []) by exact V4.
  destruct (checkpoint_spec cfg folder i st4) as (K1 & K2 & saves & K3 & K4).
  exists saves.
  split; [now rewrite K3, V1, P1, <- !app_assoc|].
  split; [exact P2|]. split; [exact P3|].
  split; [now rewrite K1|].
  split; [rewrite K2; exact V3|].
  destruct (Z.eqb_spec (save_freq cfg) 0) as [S0|S0].
  { assert (Hs : py_mod (Z.of_nat i + 1) (save_freq cfg)
                 = inl ZeroDivisionError)
      by (unfold py_mod; rewrite S0; reflexivity).
    rewrite Hs in K4. destruct K4 as (-> & ->).
    split; [now left|].
    split; [intros G Hnil; now apply Hgo in G|]. right. auto. }
  assert (Hs : py_mod (Z.of_nat i + 1) (save_freq cfg)
               = inr ((Z.of_nat i + 1) mod save_freq cfg)).
  { unfold py_mod. destruct (Z.eqb_spec (save_freq cfg) 0); congruence. }
  rewrite Hs in K4. rewrite (fires_nonzero _ i S0).
  destruct K4 as (-> & K4). split.
  - destruct ((Z.of_nat i + 1) mod save_freq cfg =? 0); [|now left].
    destruct (savepath cfg) as [p|], folder as [f|]; try (now left).
    right. split; [reflexivity|]. exists p, f, (net st4). auto.
  - split; [intros G Hnil; now apply Hgo in G|].
    split; [exact V4|]. split; [|auto].
    intros G Hp Hf. rewrite G in K4.
    destruct (savepath cfg) as [p|], folder as [f|]; congruence.
Qed.

(** The evaluations, checkpoints and scheduler steps of one turn. *)
Lemma epoch_summary (cfg : Config) (folder : option string) (i : nat)
    (st : State) :
  (exists ev,
     evaluated_epochs (trace (fst (epoch cfg folder i st)))
     = evaluated_epochs (trace st) ++ ev /\
     (ev = [] \/ (ev = [i] /\ fires (update_freq cfg) i = true)) /\
     (snd (epoch cfg folder i st) = None ->
      fires (update_freq cfg) i = true -> ev = [i])) /\
  (exists sv,
     saved_paths (trace (fst (epoch cfg folder i st)))
     = saved_paths (trace st) ++ sv /\
     (sv = [] \/
      (fires (save_freq cfg) i = true /\
       exists p f, savepath cfg = Some p /\ folder = Some f /\
                   sv = [os_path_join f (checkpoint_name i)])) /\
     (snd (epoch cfg folder i st) = None ->
      fires (save_freq cfg) i = true ->
      savepath cfg <> None -> folder <> None -> sv <> []) /\
     (snd (epoch cfg folder i st) <> None -> sv = [])) /\
  scheduler_steps (trace (fst (epoch cfg folder i st)))
  = scheduler_steps (trace st)
    ++ match sched st with Some _ => [i] | None => [] end.
Proof.
  destruct (epoch_spec cfg folder i st)
    as (lines & evals & saves & T & L & _ & _ & E & S & _ & O).
  apply line_of_description in L.
  destruct (descriptions_not_evaluated lines L) as (L1 & _ & L3 & L4).
  assert (Hs1 : evaluated_epochs (sched_events i st) = [])
    by (unfold sched_events; now destruct (sched st)).
  assert (Hs3 : saved_paths (sched_events i st) = [])
    by (unfold sched_events; now destruct (sched st)).
  assert (Hs4 : scheduler_steps (sched_events i st)
                = match sched st with Some _ => [i] | None => [] end)
    by (unfold sched_events; now destruct (sched st)).
  assert (He : evaluated_epochs saves = [] /\ scheduler_steps saves = []).
  { destruct S as [->|(_ & p & f & m & _ & _ & ->)]; now split. }
  assert (Hv : saved_paths evals = [] /\ scheduler_steps evals = []).
  { destruct E as [(-> & _)|(_ & k & _ & -> & _)]; now split. }
  rewrite T. unfold evaluated_epochs, saved_paths, scheduler_steps in *.
  rewrite !flat_map_app.
  rewrite L1, L3, L4, Hs1, Hs3, Hs4.
  destruct He as (-> & ->). destruct Hv as (-> & ->).
  simpl. rewrite ?app_nil_r.
  split; [|split; [|reflexivity]].
  - eexists. split; [reflexivity|]. split.
    + destruct E as [(-> & _)|(G & k & _ & -> & _)]; [now left|now right].
    + intros Hn G. rewrite Hn in O. destruct O as (O1 & _).
      destruct E as [(-> & _)|(_ & k & _ & -> & _)]; [|reflexivity].
      now specialize (O1 G).
  - eexists. split; [reflexivity|]. split.
    + destruct S as [->|(G & p & f & m & Hp & Hf & ->)]; [now left|].
      right. split; [exact G|]. now exists p, f.
    + split.
      * intros Hn G Hp Hf. rewrite Hn in O. destruct O as (_ & O2 & _).
        specialize (O2 G Hp Hf).
        destruct S as [->|(_ & p & f & m & _ & _ & ->)];
          [contradiction|discriminate].
      * intros Hn.
        destruct (snd (epoch cfg folder i st)) as [[]|];
          try contradiction.
        { destruct O as [(_ & _ & ->)|(_ & _ & ->)]; reflexivity. }
        { destruct O as (_ & _ & _ & ->). reflexivity. }
Qed.

(** *** The loop over the epochs *)

(** Evaluations happen at the epochs whose gate opens, in order, up to
    where the loop got; to the end when the loop ends normally. *)
Lemma epochs_loop_evaluated (cfg : Config) (folder : option string)
    (idx : list nat) :
  forall st,
  exists k,
    (k <= List.length idx)%nat /\
    evaluated_epochs (trace (fst (epochs_loop cfg folder idx st)))
    = evaluated_epochs (trace st)
      ++ filter (fires (update_freq cfg)) (firstn k idx) /\
    (snd (epochs_loop cfg folder idx st) = None -> k = List.length idx).
Proof.
  induction idx as [|i rest IH]; intros st.
  - exists 0%nat. simpl. rewrite app_nil_r. auto.
  - simpl epochs_loop.
    destruct (epoch_summary cfg folder i st)
      as ((ev & E1 & E2 & E3) & _ & _).
    destruct (epoch cfg folder i st) as [st1 [e|]]; simpl in E1, E3.
    + destruct E2 as [->|(-> & G)].
      * exists 0%nat. simpl. rewrite E1.
        split; [lia|]. split; [reflexivity|discriminate].
      * exists 1%nat. simpl. rewrite G, E1.
        split; [lia|]. split; [reflexivity|discriminate].
    + destruct (IH st1) as (k & K1 & K2 & K3).
      exists (S k). simpl. split; [lia|]. split.
      * rewrite K2, E1, <- app_assoc. f_equal.
        destruct (fires (update_freq cfg) i) eqn:G.
        { now rewrite (E3 eq_refl eq_refl). }
        { destruct E2 as [->|(_ & G')]; [reflexivity|congruence]. }
      * intros Hn. now rewrite (K3 Hn).
Qed.

(** Checkpoints are written at the epochs whose gate opens, in order, up
    to where the loop got, and only with a save path. *)
Lemma epochs_loop_saved (cfg : Config) (folder : option string)
    (idx : list nat) :
  forall st,
  exists k,
    (k <= List.length idx)%nat /\
    saved_paths (trace (fst (epochs_loop cfg folder idx st)))
    = saved_paths (trace st)
      ++ match savepath cfg, folder with
         | Some _, Some f =>
           map (fun i => os_path_join f (checkpoint_name i))
               (filter (fires (save_freq cfg)) (firstn k idx))
         | _, _ => []
         end /\
    (snd (epochs_loop cfg folder idx st) = None -> k = List.length idx).
Proof.
  induction idx as [|i rest IH]; intros st.
  - exists 0%nat. simpl.
    destruct (savepath cfg), folder; rewrite app_nil_r; auto.
  - simpl epochs_loop.
    destruct (epoch_summary cfg folder i st)
      as (_ & (sv & S1 & S2 & S3 & _) & _).
    destruct (epoch cfg folder i st) as [st1 [e|]]; simpl in S1, S3.
    + destruct S2 as [->|(G & p & f & Hp & Hf & ->)].
      * exists 0%nat. simpl. rewrite S1.
        split; [lia|]. split; [|discriminate].
        now destruct (savepath cfg), folder.
      * exists 1%nat. simpl. rewrite G, S1, Hp, Hf.
        split; [lia|]. split; [reflexivity|discriminate].
    + destruct (IH st1) as (k & K1 & K2 & K3).
      exists (S k). simpl. split; [lia|]. split.
      * rewrite K2, S1, <- app_assoc. f_equal.
        destruct S2 as [->|(G & p & f & Hp & Hf & ->)].
        { destruct (savepath cfg) as [p|] eqn:Hp;
            [|reflexivity].
          destruct folder as [f|] eqn:Hf; [|reflexivity].
          destruct (fires (save_freq cfg) i) eqn:G; [|reflexivity].
          exfalso. now apply (S3 eq_refl eq_refl). }
        { rewrite Hp, Hf, G. reflexivity. }
      * intros Hn. now rewrite (K3 Hn).
Qed.

(** Without a scheduler no scheduler step is ever made. *)
Lemma epochs_loop_no_scheduler (cfg : Config) (folder : option string)
    (idx : list nat) :
  forall st,
  sched st = None ->
  scheduler_steps (trace (fst (epochs_loop cfg folder idx st)))
  = scheduler_steps (trace st).
Proof.
  induction idx as [|i rest IH]; intros st Hs; [reflexivity|].
  simpl epochs_loop.
  destruct (epoch_summary cfg folder i st) as (_ & _ & C).
  destruct (epoch_spec cfg folder i st) as (_ & _ & _ & _ & _ & _ & Hn & _).
  rewrite Hs, app_nil_r in C.
  destruct (epoch cfg folder i st) as [st1 [e|]]; simpl in *; [exact C|].
  rewrite IH; [exact C|]. now apply Hn.
Qed.


Lemma epochs_loop_extends (cfg : Config) (folder : option string)
    (idx : list nat) :
  forall st,
  exists more,
    trace (fst (epochs_loop cfg folder idx st)) = trace st ++ more.
Proof.
  induction idx as [|i rest IH]; intros st.
  - exists []. simpl. now rewrite app_nil_r.
  - simpl epochs_loop.
    destruct (epoch_spec cfg folder i st)
      as (lines & evals & saves & T & _).
    destruct (epoch cfg folder i st) as [st1 [e|]]; simpl in T.
    + eexists. exact T.
    + destruct (IH st1) as (more & M). rewrite M, T.
      eexists. rewrite <- app_assoc. reflexivity.
Qed.

(** Progress lines shown while no evaluation gate has opened yet show
    the test loss the run started with. *)
Lemma epochs_loop_lines (cfg : Config) (folder : option string) (n : nat) :
  forall a st,
  (forall i tl m, In (Description i tl m) (trace st) ->
                  quiet_before (update_freq cfg) i -> tl = f_zero) ->
  (quiet_before (update_freq cfg) a -> test_loss st = f_zero) ->
  forall i tl m,
    In (Description i tl m)
       (trace (fst (epochs_loop cfg folder (seq a n) st))) ->
    quiet_before (update_freq cfg) i -> tl = f_zero.
Proof.
  induction n as [|n IH]; intros a st Hold Hnow; [exact Hold|].
  simpl epochs_loop.
  destruct (epoch_spec cfg folder a st)
    as (lines & evals & saves & T & L & _ & _ & E & Sv & _).
  assert (Hnew : forall i tl m,
             In (Description i tl m) (trace (fst (epoch cfg folder a st))) ->
             quiet_before (update_freq cfg) i -> tl = f_zero).
  { intros i tl m Hin Hq. rewrite T in Hin.
    apply in_app_or in Hin. destruct Hin as [Hin|Hin]; [now apply (Hold i tl m)|].
    apply in_app_or in Hin. destruct Hin as [Hin|Hin].
    { unfold sched_events in Hin. destruct (sched st); simpl in Hin;
        [destruct Hin as [Hin|[]]; discriminate|contradiction]. }
    apply in_app_or in Hin. destruct Hin as [Hin|Hin].
    { rewrite Forall_forall in L. destruct (L _ Hin) as (m' & Heq).
      injection Heq as -> -> _. now apply Hnow. }
    apply in_app_or in Hin. destruct Hin as [Hin|Hin].
    { destruct E as [(-> & _)|(_ & k & _ & -> & _)]; [contradiction|].
      destruct Hin as [Hin|[]]; discriminate. }
    destruct Sv as [->|(_ & p & f & md & _ & _ & ->)]; [contradiction|].
    destruct Hin as [Hin|[]]; discriminate. }
  destruct (epoch cfg folder a st) as [st1 [e|]]; simpl in *; [exact Hnew|].
  apply (IH (S a) st1); [exact Hnew|].
  intros Hq.
  assert (Ha : fires (update_freq cfg) a = false) by (apply Hq; lia).
  destruct E as [(_ & ->)|(G & _)]; [|congruence].
  apply Hnow. intros j Hj. apply Hq. lia.
Qed.

Lemma quiet_before_first_multiple (freq : Z) (i : nat) :
  0 < freq -> Z.of_nat i < freq -> quiet_before freq i.
Proof.
  intros Hf Hi j Hj. rewrite fires_nonzero by lia.
  apply Z.eqb_neq. rewrite Z.mod_small by lia. lia.
Qed.

(** The stored test loss and the divisors of one turn. *)
Lemma epoch_evaluation (cfg : Config) (folder : option string) (i : nat)
    (st : State) :
  (fires (update_freq cfg) i = false ->
   test_loss (fst (epoch cfg folder i st)) = test_loss st /\
   eval_divisors (trace (fst (epoch cfg folder i st)))
   = eval_divisors (trace st)) /\
  (fires (update_freq cfg) i = true ->
   match counter_at_division cfg i st with
   | Some k =>
     test_loss (fst (epoch cfg folder i st))
     = f_div_int (test_pass_total cfg i (train_pass cfg i st))
                 (Z.of_nat k + 1) /\
     eval_divisors (trace (fst (epoch cfg folder i st)))
     = eval_divisors (trace st) ++ [(i, Z.of_nat k + 1)]
   | None =>
     snd (epoch cfg folder i st) = Some UnboundLocalError /\
     test_loss (fst (epoch cfg folder i st)) = test_loss st /\
     eval_divisors (trace (fst (epoch cfg folder i st)))
     = eval_divisors (trace st)
   end).
Proof.
  destruct (epoch_spec cfg folder i st)
    as (lines & evals & saves & T & L & _ & _ & E & Sv & N & _).
  apply line_of_description in L.
  destruct (descriptions_not_evaluated lines L) as (_ & L2 & _).
  assert (Hs : eval_divisors (sched_events i st) = [])
    by (unfold sched_events; now destruct (sched st)).
  assert (Hv : eval_divisors saves = []).
  { destruct Sv as [->|(_ & p & f & m & _ & _ & ->)]; reflexivity. }
  assert (Ht : eval_divisors (trace (fst (epoch cfg folder i st)))
               = eval_divisors (trace st) ++ eval_divisors evals).
  { rewrite T. unfold eval_divisors in *. rewrite !flat_map_app.
    rewrite Hs, L2, Hv. simpl. now rewrite app_nil_r. }
  rewrite Ht. split.
  - intros G. destruct E as [(-> & E2)|(G' & _)]; [|congruence].
    simpl. now rewrite app_nil_r.
  - intros G. destruct E as [(-> & E2)|(_ & k & C & -> & E2)].
    + destruct (N G eq_refl) as (N1 & ->). simpl. now rewrite app_nil_r.
    + rewrite C. auto.
Qed.

(** *** Decimal names *)

Lemma string_length_append (a b : string) :
  String.length (a ++ b) = (String.length a + String.length b)%nat.
Proof. induction a as [|c a IH]; simpl; [reflexivity|now rewrite IH]. Qed.

Lemma string_append_cancel_r (s : string) :
  forall a b : string, (a ++ s)%string = (b ++ s)%string -> a = b.
Proof.
  induction a as [|c a IH]; destruct b as [|d b]; simpl; intros H.
  - reflexivity.
  - exfalso. apply (f_equal String.length) in H. simpl in H.
    rewrite string_length_append in H. lia.
  - exfalso. apply (f_equal String.length) in H. simpl in H.
    rewrite string_length_append in H. lia.
  - injection H as -> H. f_equal. now apply IH.
Qed.

Lemma format_nat_inj (n m : nat) : format_nat n = format_nat m -> n = m.
Proof.
  unfold format_nat. intros H.
  apply Unsigned.to_uint_inj.
  pose proof (NilEmpty.usu (Nat.to_uint n)) as Hn.
  pose proof (NilEmpty.usu (Nat.to_uint m)) as Hm.
  rewrite H in Hn. congruence.
Qed.

(** Different epochs have different checkpoint names. *)
Lemma checkpoint_name_inj (i j : nat) :
  checkpoint_name i = checkpoint_name j -> i = j.
Proof.
  unfold checkpoint_name. intros H. simpl in H.
  injection H as H.
  apply string_append_cancel_r in H.
  apply format_nat_inj in H. lia.
Qed.

(** *** A whole run *)

Section Run.

Variables tr te : nat -> list Batch.
Variable model : Net.
Variables epochs uf : Z.
Variable sp : option string.
Variable sf : Z.
Variable cu : bool.
Variable lf : option Loss.
Variable opt : option (Net -> Optim).
Variable sch : option (Net -> Sched).
Variable sil : bool.

Local Abbreviation the_run :=
  (train tr te model epochs uf sp sf cu lf opt sch sil).

(** The fixed arguments, the run folder and the locals when the loop over
    the epochs begins. *)
Definition run_cfg : Config :=
  mkConfig (match lf with None => MSELoss | Some l => l end)
           cu sil uf sf sp tr te.

Definition run_folder : option string :=
  match sp with
  | Some p => Some (os_path_join p now)
  | None => None
  end.

Definition run_start : State :=
  mkState (to_float cu model)
          (match opt with
           | None => fun x => Adam x default_lr
           | Some o => o
           end (to_float cu model))
          (match sch with
           | Some s => Some (s (to_float cu model))
           | None => None
           end)
          f_zero None
          (match run_folder with
           | Some folder => [Makedirs folder]
           | None => []
           end).

Lemma train_unfold :
  the_run = epochs_loop run_cfg run_folder (seq 0 (Z.to_nat epochs)) run_start.
Proof. reflexivity. Qed.

Lemma run_start_trace :
  evaluated_epochs (trace run_start) = [] /\
  eval_divisors (trace run_start) = [] /\
  saved_paths (trace run_start) = [] /\
  scheduler_steps (trace run_start) = [] /\
  forall i tl m, ~ In (Description i tl m) (trace run_start).
Proof.
  unfold run_start. simpl. destruct run_folder; simpl; repeat split; auto.
  intros i tl m [H|[]]. discriminate.
Qed.

Lemma filter_fires (freq : Z) (l : list nat) :
  freq <> 0 ->
  filter (fires freq) l = filter (fun i => (Z.of_nat i + 1) mod freq =? 0) l.
Proof.
  intros H. apply filter_ext. intros i. now apply fires_nonzero.
Qed.

Lemma firstn_seq_le (k n : nat) :
  (k <= n)%nat -> firstn k (seq 0 n) = seq 0 k.
Proof.
  intros H. replace n with (k + (n - k))%nat by lia.
  rewrite seq_app, firstn_app, length_seq, Nat.sub_diag. simpl.
  rewrite app_nil_r. apply firstn_all2. rewrite length_seq. lia.
Qed.

(** The epochs at which a run evaluates. *)
Lemma run_evaluated :
  exists k,
    (k <= Z.to_nat epochs)%nat /\
    evaluated_epochs (trace (fst the_run)) = filter (fires uf) (seq 0 k) /\
    (snd the_run = None -> k = Z.to_nat epochs).
Proof.
  rewrite train_unfold.
  destruct (epochs_loop_evaluated run_cfg run_folder
              (seq 0 (Z.to_nat epochs)) run_start) as (k & K1 & K2 & K3).
  rewrite length_seq in K1, K3.
  destruct run_start_trace as (R1 & _). rewrite R1 in K2. simpl in K2.
  exists k. rewrite firstn_seq_le in K2 by assumption. auto.
Qed.

(** The files a run writes. *)
Lemma run_saved :
  exists k,
    (k <= Z.to_nat epochs)%nat /\
    saved_paths (trace (fst the_run))
    = match sp with
      | Some p =>
        map (fun i => os_path_join (os_path_join p now) (checkpoint_name i))
            (filter (fires sf) (seq 0 k))
      | None => []
      end /\
    (snd the_run = None -> k = Z.to_nat epochs).
Proof.
  rewrite train_unfold.
  destruct (epochs_loop_saved run_cfg run_folder
              (seq 0 (Z.to_nat epochs)) run_start) as (k & K1 & K2 & K3).
  rewrite length_seq in K1, K3.
  destruct run_start_trace as (_ & _ & R3 & _). rewrite R3 in K2.
  simpl in K2.
  exists k. rewrite firstn_seq_le in K2 by assumption.
  split; [exact K1|]. split; [|exact K3].
  rewrite K2. unfold run_folder. now destruct sp.
Qed.

Lemma counter_at_division_cases (i : nat) (st : State) :
  (te i <> [] ->
   counter_at_division run_cfg i st = Some (List.length (te i) - 1)%nat) /\
  (te i = [] -> tr i <> [] ->
   counter_at_division run_cfg i st = Some (List.length (tr i) - 1)%nat) /\
  (te i = [] -> tr i = [] -> counter_at_division run_cfg i st = index st).
Proof.
  unfold counter_at_division, counter_after. simpl.
  destruct (te i), (tr i); repeat split; intros; congruence.
Qed.

(** *** The evaluation gate (C1) *)

(** C1: with a positive [update_freq] a run evaluates exactly at the
    epochs whose 1-based number is a multiple of it (at 3, 6 and 9 when
    it completes 10 epochs with frequency 3; a run that stops early has
    evaluated at the multiples among the epochs it got to); an epoch
    whose number is no multiple leaves the stored test loss as it was; an
    epoch whose number is a multiple stores the sum of the loss values of
    a forward-only pass over the test batches, from the model the
    training pass left, divided by the number of those batches.  The
    test iterator is one that yields a batch, as a [DataLoader] built
    with [shuffle=True] does (an empty data set is refused when the
    loader is built). *)
Theorem test_loss_gate :
  0 < uf ->
  (exists k,
     (k <= Z.to_nat epochs)%nat /\
     evaluated_epochs (trace (fst the_run))
     = filter (fun i => (Z.of_nat i + 1) mod uf =? 0) (seq 0 k) /\
     (snd the_run = None -> k = Z.to_nat epochs)) /\
  (snd the_run = None -> epochs = 10 -> uf = 3 ->
   map S (evaluated_epochs (trace (fst the_run))) = [3; 6; 9]%nat) /\
  (forall i st,
     (Z.of_nat i + 1) mod uf <> 0 ->
     test_loss (fst (epoch run_cfg run_folder i st)) = test_loss st /\
     eval_divisors (trace (fst (epoch run_cfg run_folder i st)))
     = eval_divisors (trace st)) /\
  (forall i st,
     (Z.of_nat i + 1) mod uf = 0 -> te i <> [] ->
     test_loss (fst (epoch run_cfg run_folder i st))
     = f_div_int
         (sum_losses
            (forward_losses run_cfg (te i) (net (train_pass run_cfg i st))))
         (Z.of_nat (List.length (te i))) /\
     eval_divisors (trace (fst (epoch run_cfg run_folder i st)))
     = eval_divisors (trace st) ++ [(i, Z.of_nat (List.length (te i)))]).
Proof.
  intros Hpos.
  assert (Hnz : uf <> 0) by lia.
  destruct run_evaluated as (k & K1 & K2 & K3).
  rewrite (filter_fires uf _ Hnz) in K2.
  split; [now exists k|]. split; [|split].
  - intros Hn He Hu. rewrite K2, (K3 Hn), He, Hu. reflexivity.
  - intros i st Hm.
    apply (epoch_evaluation run_cfg run_folder i st).
    simpl. rewrite fires_nonzero by assumption. now apply Z.eqb_neq.
  - intros i st Hm Hne.
    destruct (epoch_evaluation run_cfg run_folder i st) as (_ & Hev).
    destruct (counter_at_division_cases i st) as (Hc & _).
    rewrite (Hc Hne) in Hev.
    assert (Hlen : Z.of_nat (List.length (te i) - 1) + 1
                   = Z.of_nat (List.length (te i))).
    { destruct (te i); [contradiction|]. simpl List.length. lia. }
    rewrite Hlen, test_pass_total_sum in Hev. apply Hev.
    simpl. rewrite fires_nonzero by assumption. now apply Z.eqb_eq.
Qed.

(** *** The divisor of the evaluation (C7) *)

(** C7: at an evaluation epoch the total test loss is divided by
    [index + 1], [index] being the variable of the last loop that had a
    batch: the test loop when the test iterator yields a batch; otherwise
    the training loop of the same epoch, whose count of batches then
    takes the place of the number of test batches; otherwise whatever an
    earlier epoch left, and nothing at all at the start of a run, where
    the run stops on the unbound variable. *)
Theorem divisor_is_last_loop_counter (i : nat) (st : State) :
  fires uf i = true ->
  (match counter_at_division run_cfg i st with
   | Some k =>
     test_loss (fst (epoch run_cfg run_folder i st))
     = f_div_int (test_pass_total run_cfg i (train_pass run_cfg i st))
                 (Z.of_nat k + 1) /\
     eval_divisors (trace (fst (epoch run_cfg run_folder i st)))
     = eval_divisors (trace st) ++ [(i, Z.of_nat k + 1)]
   | None =>
     snd (epoch run_cfg run_folder i st) = Some UnboundLocalError /\
     test_loss (fst (epoch run_cfg run_folder i st)) = test_loss st /\
     eval_divisors (trace (fst (epoch run_cfg run_folder i st)))
     = eval_divisors (trace st)
   end) /\
  (te i <> [] ->
   counter_at_division run_cfg i st = Some (List.length (te i) - 1)%nat) /\
  (te i = [] -> tr i <> [] ->
   counter_at_division run_cfg i st = Some (List.length (tr i) - 1)%nat) /\
  (te i = [] -> tr i = [] -> counter_at_division run_cfg i st = index st) /\
  index run_start = None.
Proof.
  intros G.
  split; [now apply (epoch_evaluation run_cfg run_folder i st)|].
  destruct (counter_at_division_cases i st) as (C1 & C2 & C3).
  auto.
Qed.

(** *** The checkpoint gate (C2) *)

(** C2: a run with a save path writes, in order, one file per epoch [i]
    (0-based) with [(i+1) % save_freq == 0], as far as it gets, named
    after [i+1], different epochs having different names; completing 10
    epochs with frequency 5 it writes exactly the files of epochs 5 and
    10; without a save path it writes none, whatever the frequency. *)
Theorem checkpoint_gate :
  (exists k,
     (k <= Z.to_nat epochs)%nat /\
     saved_paths (trace (fst the_run))
     = match sp with
       | Some p =>
         map (fun i => os_path_join (os_path_join p now) (checkpoint_name i))
             (filter (fires sf) (seq 0 k))
       | None => []
       end /\
     (snd the_run = None -> k = Z.to_nat epochs)) /\
  (forall i, sf <> 0 -> fires sf i = ((Z.of_nat i + 1) mod sf =? 0)) /\
  (forall i,
     checkpoint_name i = ("epoch-" ++ format_nat (i + 1) ++ ".dat")%string) /\
  (forall i j, checkpoint_name i = checkpoint_name j -> i = j) /\
  (forall p,
     snd the_run = None -> epochs = 10 -> sf = 5 -> sp = Some p ->
     saved_paths (trace (fst the_run))
     = [os_path_join (os_path_join p now) "epoch-5.dat";
        os_path_join (os_path_join p now) "epoch-10.dat"]) /\
  (sp = None -> saved_paths (trace (fst the_run)) = []).
Proof.
  destruct run_saved as (k & K1 & K2 & K3).
  split; [now exists k|].
  split; [intros i H; now apply fires_nonzero|].
  split; [reflexivity|].
  split; [exact checkpoint_name_inj|].
  split.
  - intros p Hn He Hf Hp. rewrite K2, Hp, (K3 Hn), He, Hf. reflexivity.
  - intros Hp. rewrite K2, Hp. reflexivity.
Qed.

(** *** Frequencies that are not positive (C8) *)

Lemma first_epoch_failure :
  1 <= epochs ->
  snd (epoch run_cfg run_folder 0 run_start) <> None ->
  the_run = epoch run_cfg run_folder 0 run_start.
Proof.
  intros He Hf. rewrite train_unfold.
  destruct (Z.to_nat epochs) as [|n] eqn:E; [lia|].
  simpl. destruct (epoch run_cfg run_folder 0 run_start) as [st1 [e|]];
    [reflexivity|now contradiction Hf].
Qed.

(** A run with a zero [save_freq], a nonzero [update_freq] and an epoch
    is its first epoch: the training pass, the evaluation when it is due,
    and then the division by zero of the checkpoint gate, unless the
    evaluation has already stopped on an unbound [index]. *)
Lemma zero_save_freq_first_epoch :
  sf = 0 -> uf <> 0 -> 1 <= epochs ->
  the_run = epoch run_cfg run_folder 0 run_start /\
  fst (epoch run_cfg run_folder 0 run_start)
  = (if fires uf 0
     then fst (evaluate run_cfg 0 (train_pass run_cfg 0 run_start))
     else train_pass run_cfg 0 run_start) /\
  (fires uf 0 = false \/ tr 0%nat <> [] \/ te 0%nat <> [] ->
   snd (epoch run_cfg run_folder 0 run_start) = Some ZeroDivisionError) /\
  (fires uf 0 = true -> tr 0%nat = [] -> te 0%nat = [] ->
   snd (epoch run_cfg run_folder 0 run_start) = Some UnboundLocalError).
Proof.
  intros S0 U0 He.
  destruct (epoch_spec run_cfg run_folder 0 run_start)
    as (lines & evals & saves & _ & _ & _ & _ & _ & _ & _ & O).
  destruct (counter_at_division_cases 0 run_start) as (C1 & C2 & C3).
  assert (Hcases :
            snd (epoch run_cfg run_folder 0 run_start)
            = Some ZeroDivisionError \/
            (snd (epoch run_cfg run_folder 0 run_start)
             = Some UnboundLocalError /\
             fires uf 0 = true /\
             counter_at_division run_cfg 0 run_start = None)).
  { simpl update_freq in O. simpl save_freq in O.
    destruct (snd (epoch run_cfg run_folder 0 run_start)) as [[]|];
      try contradiction.
    - left. reflexivity.
    - right. destruct O as (G & C & _). auto.
    - destruct O as (_ & _ & _ & O). contradiction. }
  split; [|split; [|split]].
  - apply first_epoch_failure; [assumption|].
    destruct Hcases as [H|(H & _)]; rewrite H; discriminate.
  - unfold epoch, fires. simpl update_freq.
    destruct (py_mod (Z.of_nat 0 + 1) uf) as [e|m] eqn:M.
    { unfold py_mod in M. destruct (Z.eqb_spec uf 0);
        [contradiction|discriminate]. }
    destruct (m =? 0).
    + destruct (evaluate run_cfg 0 (train_pass run_cfg 0 run_start))
        as [st4 [e|]]; [reflexivity|].
      unfold checkpoint. simpl save_freq. rewrite S0. reflexivity.
    + unfold checkpoint. simpl save_freq. rewrite S0. reflexivity.
  - intros Hne. destruct Hcases as [H|(_ & G & C)]; [exact H|]. exfalso.
    destruct Hne as [H|[H|H]]; [congruence| |].
    + destruct (te 0%nat) eqn:T.
      * rewrite (C2 eq_refl H) in C. discriminate.
      * rewrite C1 in C by discriminate. discriminate.
    + rewrite (C1 H) in C. discriminate.
  - intros G T1 T2. destruct Hcases as [H|(H & _)]; [|exact H]. exfalso.
    destruct (epoch_evaluation run_cfg run_folder 0 run_start) as (_ & Hev).
    specialize (Hev G). rewrite (C3 T2 T1) in Hev.
    change (index run_start) with (@None nat) in Hev.
    destruct Hev as (Hu & _). rewrite H in Hu. discriminate.
Qed.

Lemma fires_opp (b : Z) (i : nat) : b <> 0 -> fires b i = fires (- b) i.
Proof.
  intros Hb. rewrite !fires_nonzero by lia.
  destruct (Z.eqb_spec ((Z.of_nat i + 1) mod b) 0) as [H|H];
    destruct (Z.eqb_spec ((Z.of_nat i + 1) mod - b) 0) as [H'|H'];
    try reflexivity; exfalso.
  - apply H'. apply Z.mod_divide; [lia|]. apply Z.divide_opp_l.
    apply Z.mod_divide; assumption.
  - apply H. apply Z.mod_divide; [lia|]. apply Z.divide_opp_l.
    apply Z.mod_divide; [lia|assumption].
Qed.

End Run.

(** A division by zero can only come from a zero frequency. *)
Lemma epochs_loop_zero_division (cfg : Config) (folder : option string)
    (idx : list nat) :
  forall st,
  snd (epochs_loop cfg folder idx st) = Some ZeroDivisionError ->
  update_freq cfg = 0 \/ save_freq cfg = 0.
Proof.
  induction idx as [|i rest IH]; intros st; [discriminate|].
  simpl epochs_loop.
  destruct (epoch_spec cfg folder i st)
    as (lines & evals & saves & _ & _ & _ & _ & _ & _ & _ & O).
  destruct (epoch cfg folder i st) as [st1 [e|]]; simpl in *.
  - intros Hz. injection Hz as He. rewrite He in O. tauto.
  - apply IH.
Qed.

Section Frequencies.

Variables tr te : nat -> list Batch.
Variable model : Net.
Variables epochs uf : Z.
Variable sp : option string.
Variable sf : Z.
Variable cu : bool.
Variable lf : option Loss.
Variable opt : option (Net -> Optim).
Variable sch : option (Net -> Sched).
Variable sil : bool.

Local Abbreviation a_run :=
  (train tr te model epochs uf sp sf cu lf opt sch sil).
Local Abbreviation cfg0 := (run_cfg tr te uf sp sf cu lf sil).
Local Abbreviation folder0 := (run_folder sp).
Local Abbreviation start0 := (run_start model sp cu opt sch).

(** C8, amended: nothing is validated up front.  With at least one epoch
    a zero [update_freq] stops the run on a [ZeroDivisionError] at the
    evaluation gate of the first epoch: what the run leaves is what the
    training pass of that epoch leaves, without evaluation or file.  A
    zero [save_freq] (with a nonzero [update_freq]) stops it at the
    checkpoint gate of the first epoch, with or without a save path:
    what the run leaves is what the training pass and, when it is due,
    the evaluation of that epoch leave, without a file; the error is the
    [ZeroDivisionError] unless the evaluation has stopped before on an
    unbound [index].  With no epoch nothing fails.  A negative frequency
    does not fail: the remainder is defined, and the gate opens at the
    multiples of the absolute value. *)
Theorem nonpositive_frequencies :
  (uf = 0 -> 1 <= epochs ->
   a_run = (train_pass cfg0 0 start0, Some ZeroDivisionError) /\
   evaluated_epochs (trace (fst a_run)) = [] /\
   saved_paths (trace (fst a_run)) = []) /\
  (sf = 0 -> uf <> 0 -> 1 <= epochs ->
   fst a_run
   = (if fires uf 0 then fst (evaluate cfg0 0 (train_pass cfg0 0 start0))
      else train_pass cfg0 0 start0) /\
   saved_paths (trace (fst a_run)) = [] /\
   (fires uf 0 = false \/ tr 0%nat <> [] \/ te 0%nat <> [] ->
    snd a_run = Some ZeroDivisionError) /\
   (fires uf 0 = true -> tr 0%nat = [] -> te 0%nat = [] ->
    snd a_run = Some UnboundLocalError)) /\
  (epochs <= 0 -> snd a_run = None) /\
  (uf <> 0 -> sf <> 0 -> snd a_run <> Some ZeroDivisionError) /\
  (forall a b, b < 0 -> py_mod a b = inr (a mod b)) /\
  (forall b i, b < 0 -> fires b i = fires (- b) i).
Proof.
  split; [|split; [|split; [|split; [|split]]]].
  - intros U0 He.
    assert (Hep : epoch cfg0 folder0 0 start0
                  = (train_pass cfg0 0 start0, Some ZeroDivisionError)).
    { unfold epoch. simpl update_freq. rewrite U0. reflexivity. }
    destruct (epoch_summary cfg0 folder0 0 start0)
      as ((ev & E1 & E2 & _) & (sv & S1 & _ & _ & S4) & _).
    destruct (run_start_trace model sp cu opt sch) as (R1 & _ & R3 & _).
    rewrite (first_epoch_failure tr te model epochs uf sp sf cu lf opt sch sil)
      by (try assumption; rewrite Hep; discriminate).
    split; [exact Hep|]. split.
    + rewrite E1, R1. destruct E2 as [->|(_ & G)]; [reflexivity|].
      simpl in G. rewrite U0 in G. discriminate.
    + rewrite S1, R3, S4; [reflexivity|]. rewrite Hep. discriminate.
  - intros S0 U0 He.
    destruct (zero_save_freq_first_epoch tr te model epochs uf sp sf cu lf
                opt sch sil S0 U0 He) as (Hrun & Hfst & Hz & Hu).
    destruct (epoch_summary cfg0 folder0 0 start0)
      as (_ & (sv & S1 & _ & _ & S4) & _).
    destruct (run_start_trace model sp cu opt sch) as (_ & _ & R3 & _).
    assert (Hsome : snd (epoch cfg0 folder0 0 start0) <> None).
    { destruct (fires uf 0) eqn:G.
      - destruct (tr 0%nat) eqn:T1; [destruct (te 0%nat) eqn:T2|].
        + rewrite (Hu eq_refl eq_refl eq_refl). discriminate.
        + rewrite Hz; [discriminate|]. right. right. discriminate.
        + rewrite Hz; [discriminate|]. right. left. discriminate.
      - rewrite Hz; [discriminate|]. now left. }
    rewrite Hrun.
    split; [exact Hfst|]. split; [|split; assumption].
    rewrite S1, R3, S4; [reflexivity|exact Hsome].
  - intros He. rewrite train_unfold.
    replace (Z.to_nat epochs) with 0%nat by lia. reflexivity.
  - intros U0 S0 H. rewrite train_unfold in H.
    apply epochs_loop_zero_division in H. simpl in H. tauto.
  - intros a b Hb. unfold py_mod.
    destruct (Z.eqb_spec b 0); [lia|reflexivity].
  - intros b i Hb. apply fires_opp. lia.
Qed.

End Frequencies.

Section Defaults.

Variables tr te : nat -> list Batch.
Variable model : Net.
Variables epochs uf : Z.
Variable sp : option string.
Variable sf : Z.
Variable cu : bool.
Variable lf : option Loss.
Variable opt : option (Net -> Optim).
Variable sch : option (Net -> Sched).
Variable sil : bool.

(** *** Omitted arguments (C9) *)


(** *** The test loss shown before the first evaluation (C10) *)

(** C10: the stored test loss starts at 0.0, and every progress line of
    an epoch before which no evaluation gate has opened shows 0.0: with a
    positive [update_freq], every line of the first [update_freq] epochs;
    a run that is not silent and has an epoch shows such a line. *)
Theorem progress_lines_before_first_evaluation :
  test_loss (run_start model sp cu opt sch) = f_zero /\
  (forall i tl m,
     In (Description i tl m)
        (trace (fst (train tr te model epochs uf sp sf cu lf opt sch sil))) ->
     quiet_before uf i -> tl = f_zero) /\
  (0 < uf ->
   forall i tl m,
     In (Description i tl m)
        (trace (fst (train tr te model epochs uf sp sf cu lf opt sch sil))) ->
     Z.of_nat i < uf -> tl = f_zero) /\
  (sil = false -> 1 <= epochs ->
   exists m,
     In (Description 0 f_zero m)
        (trace (fst (train tr te model epochs uf sp sf cu lf opt sch sil)))).
Proof.
  assert (Hgen : forall i tl m,
             In (Description i tl m)
                (trace (fst (train tr te model epochs uf sp sf cu lf opt sch sil))) ->
             quiet_before uf i -> tl = f_zero).
  { intros i tl m Hin Hq. rewrite train_unfold in Hin.
    apply (epochs_loop_lines (run_cfg tr te uf sp sf cu lf sil) (run_folder sp)
             (Z.to_nat epochs) 0 (run_start model sp cu opt sch))
      with (i := i) (m := m); auto.
    intros i' tl' m' Hin' _. exfalso.
    now apply (run_start_trace model sp cu opt sch) in Hin'. }
  split; [reflexivity|]. split; [exact Hgen|]. split.
  - intros Hpos i tl m Hin Hi. apply (Hgen i tl m Hin).
    now apply quiet_before_first_multiple.
  - intros Hs He. rewrite train_unfold.
    destruct (Z.to_nat epochs) as [|n] eqn:E; [lia|].
    simpl seq. simpl epochs_loop.
    destruct (epoch_spec (run_cfg tr te uf sp sf cu lf sil) (run_folder sp) 0
                (run_start model sp cu opt sch))
      as (lines & evals & saves & T & L & Len & _).
    simpl silent in Len. rewrite Hs in Len.
    destruct lines as [|e lines]; [discriminate|].
    apply Forall_inv in L. destruct L as (m & ->).
    exists m.
    assert (Hin : In (Description 0 f_zero m)
                     (trace (fst (epoch (run_cfg tr te uf sp sf cu lf sil)
                                        (run_folder sp) 0
                                        (run_start model sp cu opt sch))))).
    { rewrite T. apply in_or_app. right. apply in_or_app. right.
      left. reflexivity. }
    destruct (epoch _ _ 0 _) as [st1 [err|]]; simpl in *; [exact Hin|].
    destruct (epochs_loop_extends (run_cfg tr te uf sp sf cu lf sil)
                (run_folder sp) (seq 1 n) st1) as (more & M).
    rewrite M. apply in_or_app. now left.
Qed.

End Defaults.

(** ** Further properties of the controller *)

(** The epochs of the progress lines of a trace, and the folders made. *)
Definition line_epochs (t : list Event) : list nat :=
  flat_map (fun e => match e with Description i _ _ => [i] | _ => [] end) t.

Definition made_dirs (t : list Event) : list string :=
  flat_map (fun e => match e with Makedirs f => [f] | _ => [] end) t.

(** The loss values of a pass over the training batches [bs], from the
    model [n] and the optimizer [o]. *)
Fixpoint pass_losses (cfg : Config) (bs : list Batch) (n : Net) (o : Optim)
  : list F :=
  match bs with
  | [] => []
  | batch :: rest =>
    let b := to_device (cuda cfg) batch in
    let '(net1, loss_value) := forward_loss (loss_func cfg) n b in
    let '(o', net2) := backward_step (loss_func cfg) o net1 b in
    loss_value :: pass_losses cfg rest net2 o'
  end.

Lemma line_epochs_lines (i : nat) (tl : F) (l : list Event) :
  Forall (line_of i tl) l -> line_epochs l = repeat i (List.length l).
Proof.
  induction 1 as [|e l (m & ->) _ IH]; [reflexivity|].
  simpl. now rewrite <- IH.
Qed.

(** What a turn adds to the trace, as far as progress lines and folders
    go: the lines of the opening and of every training batch unless
    silent, and no folder. *)
Lemma epoch_new_events (cfg : Config) (folder : option string) (i : nat)
    (st : State) :
  exists new,
    trace (fst (epoch cfg folder i st)) = trace st ++ new /\
    made_dirs new = [] /\
    line_epochs new
    = (if silent cfg then []
       else repeat i (S (List.length (train_data_loader cfg i)))).
Proof.
  destruct (epoch_spec cfg folder i st)
    as (lines & evals & saves & T & L & Len & _ & E & Sv & _).
  exists (sched_events i st ++ lines ++ evals ++ saves).
  split; [exact T|].
  assert (Hl : line_epochs lines = repeat i (List.length lines))
    by now apply (line_epochs_lines i (test_loss st)).
  assert (Hd : made_dirs lines = []).
  { clear - L. induction L as [|e l (m & ->) _ IH]; [reflexivity|exact IH]. }
  assert (Hs : made_dirs (sched_events i st) = []
               /\ line_epochs (sched_events i st) = [])
    by (unfold sched_events; now destruct (sched st)).
  assert (He : made_dirs evals = [] /\ line_epochs evals = []).
  { destruct E as [(-> & _)|(_ & k & _ & -> & _)]; now split. }
  assert (Hv : made_dirs saves = [] /\ line_epochs saves = []).
  { destruct Sv as [->|(_ & p & f & m & _ & _ & ->)]; now split. }
  destruct Hs as (Hs1 & Hs2), He as (He1 & He2), Hv as (Hv1 & Hv2).
  unfold made_dirs, line_epochs in *. rewrite !flat_map_app.
  rewrite Hs1, Hs2, He1, He2, Hv1, Hv2, Hd, Hl, Len.
  simpl. rewrite !app_nil_r. split; [reflexivity|].
  now destruct (silent cfg).
Qed.

(** The progress lines and folders of the loop over the epochs: the lines
    of every epoch begun, in order, and no folder. *)
Lemma epochs_loop_progress (cfg : Config) (folder : option string)
    (idx : list nat) :
  forall st,
  exists k more,
    (k <= List.length idx)%nat /\
    (idx <> [] -> (1 <= k)%nat) /\
    trace (fst (epochs_loop cfg folder idx st)) = trace st ++ more /\
    made_dirs more = [] /\
    line_epochs more
    = (if silent cfg then []
       else flat_map
              (fun i => repeat i (S (List.length (train_data_loader cfg i))))
              (firstn k idx)) /\
    (snd (epochs_loop cfg folder idx st) = None -> k = List.length idx).
Proof.
  induction idx as [|i rest IH]; intros st.
  - exists 0%nat, []. simpl. rewrite app_nil_r.
    repeat split; auto; [congruence|now destruct (silent cfg)].
  - simpl epochs_loop.
    destruct (epoch_new_events cfg folder i st) as (new & N1 & N2 & N3).
    destruct (epoch cfg folder i st) as [st1 [e|]]; simpl in N1.
    + exists 1%nat, new. simpl. rewrite app_nil_r.
      repeat split; auto; try lia. discriminate.
    + destruct (IH st1) as (k & more & K1 & _ & K3 & K4 & K5 & K6).
      exists (S k), (new ++ more). simpl.
      split; [lia|]. split; [lia|].
      split; [now rewrite K3, N1, <- app_assoc|].
      unfold made_dirs, line_epochs in *. rewrite !flat_map_app.
      split; [now rewrite N2, K4|].
      split; [rewrite N3, K5; now destruct (silent cfg)|].
      intros H. now rewrite (K6 H).
Qed.

(** *** File names *)

Lemma string_append_cancel_l (a : string) :
  forall b c : string, (a ++ b)%string = (a ++ c)%string -> b = c.
Proof.
  induction a as [|x a IH]; simpl; intros b c H; [exact H|].
  injection H as H. now apply IH.
Qed.

(** Joining to one folder keeps different names different. *)
Lemma os_path_join_inj (a b c : string) :
  os_path_join a b = os_path_join a c -> b = c.
Proof.
  unfold os_path_join. destruct a as [|x a]; [auto|].
  destruct (ends_with_slash (String x a)); intros H.
  - now apply string_append_cancel_l in H.
  - apply string_append_cancel_l in H.
    now apply (string_append_cancel_l "/") in H.
Qed.

(** *** The loop variable [index] *)

Lemma counter_after_none (bs : list Batch) (before : option nat) :
  counter_after bs before = None -> bs = [] /\ before = None.
Proof.
  unfold counter_after. destruct bs; [auto|discriminate].
Qed.

Lemma checkpoint_index (cfg : Config) (folder : option string) (i : nat)
    (st : State) :
  index (fst (checkpoint cfg folder i st)) = index st.
Proof.
  unfold checkpoint. destruct (py_mod _ _) as [e|m]; [reflexivity|].
  destruct (m =? 0); [|reflexivity].
  destruct (savepath cfg), folder; reflexivity.
Qed.

(** The evaluation leaves [index] where its loop left it, keeps the
    optimizer and the scheduler, and shows and writes nothing. *)
Lemma evaluate_keeps (cfg : Config) (i : nat) (st : State) :
  index (fst (evaluate cfg i st))
  = counter_after (test_data_loader cfg i) (index st) /\
  optim (fst (evaluate cfg i st)) = optim st /\
  sched (fst (evaluate cfg i st)) = sched st /\
  (trace (fst (evaluate cfg i st)) = trace st \/
   exists total d,
     trace (fst (evaluate cfg i st)) = trace st ++ [Evaluated i total d]).
Proof.
  unfold evaluate, counter_after.
  destruct (test_batches_spec cfg (test_data_loader cfg i) 0 f_zero st)
    as (H1 & _ & H3 & H4 & H5).
  destruct (test_batches cfg 0 (test_data_loader cfg i) f_zero st)
    as [total st1]. simpl in *.
  assert (Hidx : index st1
                 = match test_data_loader cfg i with
                   | [] => index st
                   | _ :: _ => Some (List.length (test_data_loader cfg i) - 1)%nat
                   end).
  { rewrite H5. destruct (test_data_loader cfg i); reflexivity. }
  destruct (index st1) as [k|] eqn:E; simpl; rewrite ?E.
  - split; [exact Hidx|]. split; [exact H4|]. split; [exact H3|].
    right. rewrite H1. eauto.
  - split; [exact Hidx|]. split; [exact H4|]. split; [exact H3|].
    left. exact H1.
Qed.

(** When a turn leaves [index] unbound, it found it unbound and had no
    training batch. *)
Lemma epoch_index_none (cfg : Config) (folder : option string) (i : nat)
    (st : State) :
  index (fst (epoch cfg folder i st)) = None ->
  index st = None /\ train_data_loader cfg i = [].
Proof.
  unfold epoch.
  destruct (train_pass_spec cfg i st) as (lines & _ & _ & _ & _ & _ & P6).
  set (st3 := train_pass cfg i st) in *.
  assert (Hst3 : index st3 = None ->
                 index st = None /\ train_data_loader cfg i = []).
  { rewrite P6. intros H. apply counter_after_none in H. tauto. }
  destruct (py_mod _ (update_freq cfg)) as [e|m]; [exact Hst3|].
  destruct (m =? 0).
  - destruct (evaluate_keeps cfg i st3) as (E1 & _).
    destruct (evaluate cfg i st3) as [st4 [e|]]; simpl in *.
    + rewrite E1. intros H. apply counter_after_none in H. tauto.
    + rewrite checkpoint_index, E1. intros H.
      apply counter_after_none in H. tauto.
  - rewrite checkpoint_index. exact Hst3.
Qed.

(** The loop can only stop on the unbound [index] at an evaluation
    epoch without a test batch, no epoch up to it having had a training
    batch. *)
Lemma epochs_loop_unbound (cfg : Config) (folder : option string) (n : nat) :
  forall a st,
  (index st = None ->
   forall j, (j < a)%nat -> train_data_loader cfg j = []) ->
  snd (epochs_loop cfg folder (seq a n) st) = Some UnboundLocalError ->
  exists i,
    (a <= i < a + n)%nat /\
    fires (update_freq cfg) i = true /\
    test_data_loader cfg i = [] /\
    forall j, (j <= i)%nat -> train_data_loader cfg j = [].
Proof.
  induction n as [|n IH]; intros a st Hinv; [discriminate|].
  simpl epochs_loop.
  destruct (epoch_spec cfg folder a st)
    as (lines & evals & saves & _ & _ & _ & _ & _ & _ & _ & O).
  pose proof (epoch_index_none cfg folder a st) as Hidx.
  destruct (epoch cfg folder a st) as [st1 [e|]]; simpl in *.
  - intros H. injection H as He. rewrite He in O.
    destruct O as (G & C & _).
    unfold counter_at_division in C.
    apply counter_after_none in C. destruct C as (Te & C).
    apply counter_after_none in C. destruct C as (Tr & C).
    exists a. split; [lia|]. split; [exact G|]. split; [exact Te|].
    intros j Hj. destruct (Nat.eq_dec j a) as [->|Hne]; [exact Tr|].
    apply (Hinv C). lia.
  - intros H.
    destruct (IH (S a) st1) as (i & I1 & I2 & I3 & I4); [|exact H|].
    + intros Hn j Hj. destruct (Hidx Hn) as (Hs & Tr).
      destruct (Nat.eq_dec j a) as [->|Hne]; [exact Tr|].
      apply (Hinv Hs). lia.
    + exists i. split; [lia|]. auto.
Qed.

(** The loop raises nothing but the two errors of its gates. *)
Lemma epochs_loop_errors (cfg : Config) (folder : option string)
    (idx : list nat) :
  forall st e,
  snd (epochs_loop cfg folder idx st) = Some e ->
  e = ZeroDivisionError \/ e = UnboundLocalError.
Proof.
  induction idx as [|i rest IH]; intros st e; [discriminate|].
  simpl epochs_loop.
  destruct (epoch_spec cfg folder i st)
    as (lines & evals & saves & _ & _ & _ & _ & _ & _ & _ & O).
  destruct (epoch cfg folder i st) as [st1 [e'|]]; simpl in *.
  - intros H. injection H as He. rewrite He in O.
    destruct e; try contradiction; auto.
  - apply IH.
Qed.

(** *** The progress lines of a training pass *)

Lemma train_batches_lines (cfg : Config) (i : nat) (bs : list Batch) :
  forall k acc st,
  trace (train_batches cfg i k bs acc st)
  = trace st
    ++ (if silent cfg then []
        else map (fun j =>
                    Description i (test_loss st)
                      (Some (np_mean
                               (acc ++ firstn (S j)
                                         (pass_losses cfg bs (net st)
                                                      (optim st))))))
                 (seq 0 (List.length bs))).
Proof.
  induction bs as [|b rest IH]; intros k acc st.
  - simpl. destruct (silent cfg); now rewrite app_nil_r.
  - simpl train_batches. simpl pass_losses.
    destruct (forward_loss _ _ _) as [net1 v].
    destruct (backward_step _ _ _ _) as [o' net2].
    set (st' := mkState net2 o' (sched st) (test_loss st) (Some k) (trace st)).
    set (e := Description i (test_loss st) (Some (np_mean (acc ++ [v])))).
    rewrite IH.
    destruct (show_spec cfg e st') as (W1 & W2 & _ & W4 & _ & W6).
    rewrite W1, W2, W4, W6. simpl.
    destruct (silent cfg); [now rewrite !app_nil_r|].
    rewrite <- app_assoc. f_equal. simpl. f_equal.
    rewrite <- seq_shift, map_map.
    apply map_ext. intros j. simpl. now rewrite <- app_assoc.
Qed.

Lemma pass_losses_length (cfg : Config) (bs : list Batch) :
  forall n o, List.length (pass_losses cfg bs n o) = List.length bs.
Proof.
  induction bs as [|b rest IH]; intros n o; [reflexivity|].
  simpl. destruct (forward_loss _ _ _) as [net1 v].
  destruct (backward_step _ _ _ _) as [o' net2]. simpl. now rewrite IH.
Qed.

Lemma step_scheduler_net (i : nat) (st : State) :
  net (step_scheduler i st) = net st.
Proof.
  unfold step_scheduler. destruct (sched st) as [s|]; [|reflexivity].
  now destruct (scheduler_step s (optim st)).
Qed.

Lemma checkpoint_optim (cfg : Config) (folder : option string) (i : nat)
    (st : State) :
  optim (fst (checkpoint cfg folder i st)) = optim st.
Proof.
  unfold checkpoint. destruct (py_mod _ _) as [e|m]; [reflexivity|].
  destruct (m =? 0); [|reflexivity].
  destruct (savepath cfg), folder; reflexivity.
Qed.

(** The progress lines of a training pass that is not silent: the opening
    line with the literal 0, then after every batch a line with the mean
    of all the losses of the epoch so far; all of them show the test loss
    stored when the epoch began. *)
Theorem progress_lines_show_running_mean (cfg : Config) (i : nat)
    (st : State) :
  silent cfg = false ->
  trace (train_pass cfg i st)
  = trace st ++ sched_events i st
    ++ Description i (test_loss st) None
       :: map (fun j =>
                 Description i (test_loss st)
                   (Some (np_mean
                            (firstn (S j)
                               (pass_losses cfg (train_data_loader cfg i)
                                  (net st) (optim (step_scheduler i st)))))))
              (seq 0 (List.length (train_data_loader cfg i))) /\
  List.length (pass_losses cfg (train_data_loader cfg i) (net st)
                           (optim (step_scheduler i st)))
  = List.length (train_data_loader cfg i).
Proof.
  intros Hs. split; [|apply pass_losses_length].
  unfold train_pass. rewrite train_batches_lines.
  destruct (step_scheduler_spec i st) as (S1 & S2 & _).
  set (st1 := step_scheduler i st) in *.
  destruct (show_spec cfg (Description i (test_loss st1) None) st1)
    as (W1 & W2 & _ & W4 & _ & W6).
  rewrite W1, W2, W4, W6, Hs, S1, S2. unfold st1.
  rewrite step_scheduler_net. simpl. now rewrite <- !app_assoc.
Qed.

(** After the pass over the training batches a turn changes neither the
    optimizer nor the scheduler: the evaluation is forward only and the
    checkpoint only reads. *)
Theorem evaluation_is_forward_only (cfg : Config) (folder : option string)
    (i : nat) (st : State) :
  optim (fst (epoch cfg folder i st)) = optim (train_pass cfg i st) /\
  sched (fst (epoch cfg folder i st)) = sched (train_pass cfg i st).
Proof.
  unfold epoch. set (st3 := train_pass cfg i st).
  destruct (py_mod _ (update_freq cfg)) as [e|m]; [auto|].
  destruct (m =? 0).
  - destruct (evaluate_keeps cfg i st3) as (_ & E2 & E3 & _).
    destruct (evaluate cfg i st3) as [st4 [e|]]; simpl in *; [auto|].
    destruct (checkpoint_spec cfg folder i st4) as (K1 & _).
    now rewrite checkpoint_optim, K1, E2, E3.
  - destruct (checkpoint_spec cfg folder i st3) as (K1 & _).
    now rewrite checkpoint_optim, K1.
Qed.

Lemma NoDup_map_injective {A B : Type} (f : A -> B) (l : list A) :
  (forall x y, f x = f y -> x = y) -> NoDup l -> NoDup (map f l).
Proof.
  intros Hf. induction 1 as [|x l Hx _ IH]; simpl; constructor; [|exact IH].
  intros Hin. apply in_map_iff in Hin. destruct Hin as (y & Hy & Hin).
  apply Hf in Hy. now subst y.
Qed.

Section RunMore.

Variables tr te : nat -> list Batch.
Variable model : Net.
Variables epochs uf : Z.
Variable sp : option string.
Variable sf : Z.
Variable cu : bool.
Variable lf : option Loss.
Variable opt : option (Net -> Optim).
Variable sch : option (Net -> Sched).
Variable sil : bool.

Local Abbreviation this_run :=
  (train tr te model epochs uf sp sf cu lf opt sch sil).
Local Abbreviation cfg1 := (run_cfg tr te uf sp sf cu lf sil).
Local Abbreviation start1 := (run_start model sp cu opt sch).

Lemma run_progress :
  exists k more,
    (k <= Z.to_nat epochs)%nat /\
    (1 <= epochs -> (1 <= k)%nat) /\
    trace (fst this_run) = trace start1 ++ more /\
    made_dirs more = [] /\
    line_epochs more
    = (if sil then []
       else flat_map (fun i => repeat i (S (List.length (tr i)))) (seq 0 k)) /\
    (snd this_run = None -> k = Z.to_nat epochs).
Proof.
  rewrite train_unfold.
  destruct (epochs_loop_progress cfg1 (run_folder sp)
              (seq 0 (Z.to_nat epochs)) start1)
    as (k & more & K1 & K2 & K3 & K4 & K5 & K6).
  rewrite length_seq in K1, K6.
  rewrite firstn_seq_le in K5 by assumption.
  exists k, more. repeat split; auto.
  intros He. apply K2.
  destruct (Z.to_nat epochs) eqn:E; [lia|discriminate].
Qed.

(** A run shows, unless silent, the opening line and one line per
    training batch of every epoch it begins, in order, and nothing when
    silent; it begins at least one epoch when it has one, and all of them
    when it ends normally. *)
Theorem progress_lines_of_a_run :
  exists k,
    (k <= Z.to_nat epochs)%nat /\
    (1 <= epochs -> (1 <= k)%nat) /\
    line_epochs (trace (fst this_run))
    = (if sil then []
       else flat_map (fun i => repeat i (S (List.length (tr i)))) (seq 0 k)) /\
    (snd this_run = None -> k = Z.to_nat epochs).
Proof.
  destruct run_progress as (k & more & K1 & K2 & K3 & _ & K5 & K6).
  exists k. repeat split; auto.
  rewrite K3. unfold line_epochs in *. rewrite flat_map_app, K5.
  unfold run_start. simpl. now destruct (run_folder sp).
Qed.

(** With a save path the run folder is made once, before anything else,
    and every file written lies in it; without one no folder is made and
    no file is written. *)
Theorem run_folder_is_made_once_first :
  exists more,
    trace (fst this_run)
    = match sp with
      | Some p => [Makedirs (os_path_join p now)]
      | None => []
      end ++ more /\
    made_dirs more = [] /\
    forall path,
      In path (saved_paths (trace (fst this_run))) ->
      exists p i,
        sp = Some p /\
        path = os_path_join (os_path_join p now) (checkpoint_name i).
Proof.
  destruct run_progress as (k & more & _ & _ & K3 & K4 & _).
  exists more. split; [|split; [exact K4|]].
  - rewrite K3. unfold run_start, run_folder. simpl. now destruct sp.
  - intros path Hin.
    destruct (run_saved tr te model epochs uf sp sf cu lf opt sch sil)
      as (k' & _ & S2 & _).
    rewrite S2 in Hin. destruct sp as [p|]; [|contradiction].
    apply in_map_iff in Hin. destruct Hin as (i & <- & _).
    now exists p, i.
Qed.

(** No file is written twice in a run: the checkpoints of different
    epochs have different paths. *)
Theorem checkpoints_are_never_overwritten :
  NoDup (saved_paths (trace (fst this_run))).
Proof.
  destruct (run_saved tr te model epochs uf sp sf cu lf opt sch sil)
    as (k & _ & S2 & _).
  rewrite S2. destruct sp as [p|]; [|constructor].
  apply NoDup_map_injective.
  - intros i j H. apply os_path_join_inj in H.
    now apply checkpoint_name_inj.
  - apply NoDup_filter, seq_NoDup.
Qed.

(** A run stops on the unbound loop variable only at an evaluation epoch
    whose test iterator yields nothing, when no epoch up to it has had a
    training batch. *)
Theorem unbound_counter_needs_empty_loaders :
  snd this_run = Some UnboundLocalError ->
  exists i,
    (i < Z.to_nat epochs)%nat /\
    fires uf i = true /\
    te i = [] /\
    forall j, (j <= i)%nat -> tr j = [].
Proof.
  rewrite train_unfold. intros H.
  destruct (epochs_loop_unbound cfg1 (run_folder sp) (Z.to_nat epochs) 0
              start1) as (i & I1 & I2 & I3 & I4); [|exact H|].
  - intros _ j Hj. lia.
  - exists i. split; [lia|]. auto.
Qed.

Lemma run_ends_normally :
  uf <> 0 -> sf <> 0 ->
  tr 0%nat <> [] \/ (forall i, te i <> []) ->
  snd this_run = None.
Proof.
  intros Hu Hs Hb.
  destruct (snd this_run) as [e|] eqn:E; [exfalso|reflexivity].
  pose proof E as E'. rewrite train_unfold in E'.
  destruct (epochs_loop_errors _ _ _ _ _ E') as [->| ->].
  - apply epochs_loop_zero_division in E'. simpl in E'. tauto.
  - destruct (epochs_loop_unbound cfg1 (run_folder sp) (Z.to_nat epochs) 0
                start1) as (i & _ & _ & I3 & I4);
      [intros _ j Hj; lia|exact E'|].
    destruct Hb as [Hb|Hb]; [apply Hb, I4; lia|now apply (Hb i)].
Qed.

(** With nonzero frequencies, and a training batch in the first epoch or
    a test batch at every epoch, a run ends normally: it goes through
    all its epochs, evaluates at every epoch whose gate opens and writes
    the checkpoint of every epoch whose gate opens. *)
Theorem run_completes :
  uf <> 0 -> sf <> 0 ->
  tr 0%nat <> [] \/ (forall i, te i <> []) ->
  snd this_run = None /\
  evaluated_epochs (trace (fst this_run))
  = filter (fires uf) (seq 0 (Z.to_nat epochs)) /\
  saved_paths (trace (fst this_run))
  = match sp with
    | Some p =>
      map (fun i => os_path_join (os_path_join p now) (checkpoint_name i))
          (filter (fires sf) (seq 0 (Z.to_nat epochs)))
    | None => []
    end.
Proof.
  intros Hu Hs Hb.
  pose proof (run_ends_normally Hu Hs Hb) as Hn.
  split; [exact Hn|].
  destruct (run_evaluated tr te model epochs uf sp sf cu lf opt sch sil)
    as (k & _ & K2 & K3).
  destruct (run_saved tr te model epochs uf sp sf cu lf opt sch sil)
    as (k' & _ & S2 & S3).
  rewrite K2, S2, (K3 Hn), (S3 Hn). auto.
Qed.

(** The number of the multiples of a positive [f] among [1 .. n]. *)
Lemma count_multiples (f : Z) (n : nat) :
  0 < f ->
  List.length (filter (fires f) (seq 0 n)) = Z.to_nat (Z.of_nat n / f).
Proof.
  intros Hf. induction n as [|n IH].
  - change (Z.of_nat 0) with 0. now rewrite Zdiv_0_l.
  - rewrite seq_S, filter_app, length_app, IH. simpl seq. simpl filter.
    rewrite fires_nonzero by lia.
    replace (Z.of_nat (0 + n) + 1) with (Z.of_nat n + 1) by lia.
    replace (Z.of_nat (S n)) with (Z.of_nat n + 1) by lia.
    set (a := Z.of_nat n).
    assert (Ha : 0 <= a) by (unfold a; lia).
    pose proof (Z.div_mod a f ltac:(lia)) as Dn.
    pose proof (Z.mod_pos_bound a f Hf) as Bn.
    pose proof (Z.div_pos a f Ha Hf) as Pn.
    pose proof (Z.div_mod (a + 1) f ltac:(lia)) as Ds.
    pose proof (Z.mod_pos_bound (a + 1) f Hf) as Bs.
    set (q := a / f) in *. set (r := a mod f) in *.
    set (q' := (a + 1) / f) in *. set (r' := (a + 1) mod f) in *.
    assert (Hlo : q <= q').
    { destruct (Z.le_gt_cases q q') as [H|H]; [exact H|].
      exfalso. assert (f * q' + f <= f * q) by nia. lia. }
    assert (Hhi : q' <= q + 1).
    { destruct (Z.le_gt_cases q' (q + 1)) as [H|H]; [exact H|].
      exfalso. assert (f * q + 2 * f <= f * q') by nia. lia. }
    destruct (Z.eqb_spec r' 0) as [Hm|Hm].
    + assert (Hd : q' = q + 1).
      { destruct (Z.eq_dec q' q) as [E|E]; [|lia].
        exfalso. rewrite E in Ds. lia. }
      rewrite Hd. simpl List.length. lia.
    + assert (Hd : q' = q).
      { destruct (Z.eq_dec q' q) as [E|E]; [exact E|].
        exfalso. assert (E' : q' = q + 1) by lia.
        rewrite E' in Ds. assert (f * (q + 1) = f * q + f) by ring. lia. }
      rewrite Hd. simpl List.length. lia.
Qed.

(** With positive frequencies a run that goes through its epochs
    evaluates [epochs // update_freq] times and, with a save path, writes
    [epochs // save_freq] files. *)
Theorem evaluations_and_checkpoints_count :
  0 < uf -> 0 < sf ->
  tr 0%nat <> [] \/ (forall i, te i <> []) ->
  List.length (evaluated_epochs (trace (fst this_run)))
  = Z.to_nat (epochs / uf) /\
  List.length (saved_paths (trace (fst this_run)))
  = match sp with
    | Some _ => Z.to_nat (epochs / sf)
    | None => 0%nat
    end.
Proof.
  intros Hu Hs Hb.
  assert (Hn : snd this_run = None)
    by (apply run_ends_normally; [lia|lia|exact Hb]).
  destruct (run_evaluated tr te model epochs uf sp sf cu lf opt sch sil)
    as (k & _ & K2 & K3).
  destruct (run_saved tr te model epochs uf sp sf cu lf opt sch sil)
    as (k' & _ & S2 & S3).
  rewrite K2, S2, (K3 Hn), (S3 Hn).
  assert (Hdiv : forall f, 0 < f ->
                 Z.to_nat (Z.of_nat (Z.to_nat epochs) / f)
                 = Z.to_nat (epochs / f)).
  { intros f Hf. destruct (Z.le_gt_cases 0 epochs) as [He|He].
    - now rewrite Z2Nat.id.
    - replace (Z.to_nat epochs) with 0%nat by lia.
      change (Z.of_nat 0) with 0. rewrite Zdiv_0_l.
      assert (epochs / f < 0) by (apply Z.div_lt_upper_bound; lia).
      lia. }
  split.
  - now rewrite count_multiples, Hdiv.
  - destruct sp; [|reflexivity].
    now rewrite length_map, count_multiples, Hdiv.
Qed.

End RunMore.

(** ** A [save_freq] that is not an integer

    [train] does not look at the type of [save_freq].  The command line
    declares [--save-freq] with [type = str], so a value given there
    reaches [train] as a string, while the default of the module of
    defaults is passed on as it is. *)

Inductive PyVal : Type :=
| PyInt (z : Z)
| PyStr (s : string).

Inductive Failure : Type :=
| Py (e : PyError)
| TypeError.   (* unsupported operand types for %: 'int' and 'str' *)

(** [a % b] for an integer [a] and a [b] of either type. *)
Definition py_mod_any (a : Z) (b : PyVal) : Failure + Z :=
  match b with
  | PyInt z =>
    match py_mod a z with
    | inl e => inl (Py e)
    | inr m => inr m
    end
  | PyStr _ => inl TypeError
  end.

(** The checkpoint gate with the [save_freq] given; the [save_freq] field
    of the configuration is not read. *)
Definition checkpoint_any (cfg : Config) (freq : PyVal)
    (save_folder : option string) (i : nat) (st : State)
  : State * option Failure :=
  match py_mod_any (Z.of_nat i + 1) freq with
  | inl e => (st, Some e)
  | inr m =>
    if m =? 0 then
      match savepath cfg, save_folder with
      | Some _, Some folder =>
        (emit (Saved (os_path_join folder (checkpoint_name i)) (net st)) st, None)
      | _, _ => (st, None)
      end
    else (st, None)
  end.

Definition epoch_any (cfg : Config) (freq : PyVal)
    (save_folder : option string) (i : nat) (st : State)
  : State * option Failure :=
  let st3 := train_pass cfg i st in
  match py_mod (Z.of_nat i + 1) (update_freq cfg) with
  | inl e => (st3, Some (Py e))
  | inr m =>
    match (if m =? 0 then evaluate cfg i st3 else (st3, None)) with
    | (st4, Some e) => (st4, Some (Py e))
    | (st4, None) => checkpoint_any cfg freq save_folder i st4
    end
  end.

Fixpoint epochs_loop_any (cfg : Config) (freq : PyVal)
    (save_folder : option string) (idx : list nat) (st : State)
  : State * option Failure :=
  match idx with
  | [] => (st, None)
  | i :: rest =>
    match epoch_any cfg freq save_folder i st with
    | (st', None) => epochs_loop_any cfg freq save_folder rest st'
    | (st', Some e) => (st', Some e)
    end
  end.

(** The integer kept in the configuration for a [save_freq]. *)
Definition int_or_zero (v : PyVal) : Z :=
  match v with
  | PyInt z => z
  | PyStr _ => 0
  end.

(** [train] with a [save_freq] of either type. *)
Definition train_any (train_loader test_loader : nat -> list Batch)
    (model : Net) (epochs update_freq : Z) (savepath : option string)
    (save_freq : PyVal) (cuda : bool) (loss_func : option Loss)
    (optimizer : option (Net -> Optim)) (scheduler : option (Net -> Sched))
    (silent : bool) : State * option Failure :=
  let test_loss := f_zero in
  let model := to_float cuda model in
  let loss_func := match loss_func with
                   | None => MSELoss
                   | Some l => l
                   end in
  let optimizer := match optimizer with
                   | None => fun x => Adam x default_lr
                   | Some o => o
                   end in
  let model_optimizer := optimizer model in
  let model_scheduler := match scheduler with
                         | Some s => Some (s model)
                         | None => None
                         end in
  let save_folder := match savepath with
                     | Some p => Some (os_path_join p now)
                     | None => None
                     end in
  let made := match save_folder with
              | Some folder => [Makedirs folder]
              | None => []
              end in
  let cfg := mkConfig loss_func cuda silent update_freq
                      (int_or_zero save_freq) savepath
                      train_loader test_loader in
  epochs_loop_any cfg save_freq save_folder (seq 0 (Z.to_nat epochs))
    (mkState model model_optimizer model_scheduler test_loss None made).

(** How an error of the controller with the integer [int_or_zero v]
    shows with [v] itself: the division by zero of the checkpoint gate is
    the type error of a string. *)
Definition as_failure (v : PyVal) (update_freq : Z) (e : PyError) : Failure :=
  match v, e with
  | PyStr _, ZeroDivisionError =>
    if update_freq =? 0 then Py e else TypeError
  | _, _ => Py e
  end.

Definition as_outcome (v : PyVal) (update_freq : Z)
    (r : State * option PyError) : State * option Failure :=
  (fst r, option_map (as_failure v update_freq) (snd r)).

Lemma evaluate_error (cfg : Config) (i : nat) (st : State) (e : PyError) :
  snd (evaluate cfg i st) = Some e -> e = UnboundLocalError.
Proof.
  destruct (evaluate_spec cfg i st) as (_ & H).
  destruct (counter_after _ _); destruct H as (-> & _); congruence.
Qed.

Lemma epoch_any_epoch (cfg : Config) (v : PyVal) (folder : option string)
    (i : nat) (st : State) :
  save_freq cfg = int_or_zero v ->
  epoch_any cfg v folder i st
  = as_outcome v (update_freq cfg) (epoch cfg folder i st).
Proof.
  intros Hf. unfold epoch_any, epoch, as_outcome.
  set (st3 := train_pass cfg i st).
  destruct (Z.eqb_spec (update_freq cfg) 0) as [U|U].
  { assert (Hmod : py_mod (Z.of_nat i + 1) (update_freq cfg)
                   = inl ZeroDivisionError)
      by (unfold py_mod; rewrite U; reflexivity).
    rewrite Hmod. simpl. unfold as_failure. rewrite U. simpl.
    now destruct v. }
  assert (Hmod : py_mod (Z.of_nat i + 1) (update_freq cfg)
                 = inr ((Z.of_nat i + 1) mod update_freq cfg)).
  { unfold py_mod. destruct (Z.eqb_spec (update_freq cfg) 0); congruence. }
  rewrite Hmod.
  pose proof (evaluate_error cfg i st3) as He.
  destruct (if (Z.of_nat i + 1) mod update_freq cfg =? 0
            then evaluate cfg i st3 else (st3, None)) as [st4 r] eqn:E.
  assert (Hr : forall e, r = Some e -> e = UnboundLocalError).
  { intros e ->. destruct (_ =? 0); [|discriminate].
    apply He. now rewrite E. }
  destruct r as [e|].
  { rewrite (Hr e eq_refl). simpl. now destruct v. }
  unfold checkpoint_any, checkpoint, py_mod_any. rewrite Hf.
  destruct v as [z|s]; simpl int_or_zero.
  - destruct (py_mod (Z.of_nat i + 1) z) as [e|m]; [reflexivity|].
    destruct (m =? 0); [|reflexivity].
    destruct (savepath cfg), folder; reflexivity.
  - simpl. unfold as_failure.
    destruct (Z.eqb_spec (update_freq cfg) 0); [contradiction|reflexivity].
Qed.

Lemma epochs_loop_any_epochs_loop (cfg : Config) (v : PyVal)
    (folder : option string) (idx : list nat) :
  save_freq cfg = int_or_zero v ->
  forall st,
  epochs_loop_any cfg v folder idx st
  = as_outcome v (update_freq cfg) (epochs_loop cfg folder idx st).
Proof.
  intros Hf. induction idx as [|i rest IH]; intros st; [reflexivity|].
  simpl. rewrite (epoch_any_epoch cfg v folder i st Hf).
  unfold as_outcome at 1.
  destruct (epoch cfg folder i st) as [st1 [e|]]; simpl; [reflexivity|].
  apply IH.
Qed.

Section AnySaveFreq.

Variables tr te : nat -> list Batch.
Variable model : Net.
Variables epochs uf : Z.
Variable sp : option string.
Variable cu : bool.
Variable lf : option Loss.
Variable opt : option (Net -> Optim).
Variable sch : option (Net -> Sched).
Variable sil : bool.

(** With a [save_freq] of either type the controller does what it does
    with the integer kept for it, the error apart. *)
Lemma train_any_train (v : PyVal) :
  train_any tr te model epochs uf sp v cu lf opt sch sil
  = as_outcome v uf
      (train tr te model epochs uf sp (int_or_zero v) cu lf opt sch sil).
Proof.
  unfold train_any, train.
  now rewrite epochs_loop_any_epochs_loop.
Qed.

(** The epochs evaluated are those of the divisors recorded. *)
Lemma evaluated_epochs_divisors (t : list Event) :
  evaluated_epochs t = map fst (eval_divisors t).
Proof.
  unfold evaluated_epochs, eval_divisors.
  induction t as [|e t IH]; [reflexivity|].
  destruct e; simpl; rewrite IH; reflexivity.
Qed.

(** With a string for [save_freq], a nonzero [update_freq] and an epoch,
    the run leaves what its first epoch leaves with the integer 0 for
    [save_freq], and ends on the [TypeError] of the checkpoint gate,
    unless the evaluation has stopped before it on an unbound [index]. *)
Lemma string_save_freq_run (s : string) :
  uf <> 0 -> 1 <= epochs ->
  fst (train_any tr te model epochs uf sp (PyStr s) cu lf opt sch sil)
  = fst (epoch (run_cfg tr te uf sp 0 cu lf sil) (run_folder sp) 0
               (run_start model sp cu opt sch)) /\
  snd (epoch (run_cfg tr te uf sp 0 cu lf sil) (run_folder sp) 0
             (run_start model sp cu opt sch)) <> None /\
  (fires uf 0 = false \/ tr 0%nat <> [] \/ te 0%nat <> [] ->
   snd (train_any tr te model epochs uf sp (PyStr s) cu lf opt sch sil)
   = Some TypeError) /\
  (fires uf 0 = true -> tr 0%nat = [] -> te 0%nat = [] ->
   snd (train_any tr te model epochs uf sp (PyStr s) cu lf opt sch sil)
   = Some (Py UnboundLocalError)).
Proof.
  intros U0 He.
  rewrite train_any_train. simpl int_or_zero. unfold as_outcome.
  simpl fst. simpl snd.
  destruct (zero_save_freq_first_epoch tr te model epochs uf sp 0 cu lf opt
              sch sil eq_refl U0 He) as (Hrun & _ & Hz & Hu).
  rewrite Hrun.
  split; [reflexivity|]. split; [|split].
  - destruct (fires uf 0) eqn:G.
    + destruct (tr 0%nat) eqn:T1; [destruct (te 0%nat) eqn:T2|].
      * rewrite (Hu eq_refl eq_refl eq_refl). discriminate.
      * rewrite Hz; [discriminate|]. right. right. discriminate.
      * rewrite Hz; [discriminate|]. right. left. discriminate.
    + rewrite Hz; [discriminate|]. now left.
  - intros Hb. rewrite (Hz Hb). simpl. unfold as_failure.
    destruct (Z.eqb_spec uf 0); [contradiction|reflexivity].
  - intros G T1 T2. rewrite (Hu G T1 T2). reflexivity.
Qed.

(** A [save_freq] that is a string, as the command line gives it: with a
    nonzero [update_freq] and an epoch, the run does not get past its
    first epoch and writes no file, with or without a save path.  It
    stops on a [TypeError] at the checkpoint gate, after the training
    batches of that epoch and its evaluation, when due; only when the
    evaluation is due and neither iterator yields a batch does it stop
    before, on the unbound [index]. *)
Theorem string_save_freq_fails (s : string) :
  uf <> 0 -> 1 <= epochs ->
  (fires uf 0 = false \/ tr 0%nat <> [] \/ te 0%nat <> [] ->
   snd (train_any tr te model epochs uf sp (PyStr s) cu lf opt sch sil)
   = Some TypeError /\
   evaluated_epochs
     (trace (fst (train_any tr te model epochs uf sp (PyStr s) cu lf opt sch
                            sil)))
   = (if fires uf 0 then [0%nat] else [])) /\
  (fires uf 0 = true -> tr 0%nat = [] -> te 0%nat = [] ->
   snd (train_any tr te model epochs uf sp (PyStr s) cu lf opt sch sil)
   = Some (Py UnboundLocalError) /\
   evaluated_epochs
     (trace (fst (train_any tr te model epochs uf sp (PyStr s) cu lf opt sch
                            sil))) = []) /\
  saved_paths
    (trace (fst (train_any tr te model epochs uf sp (PyStr s) cu lf opt sch
                           sil))) = [] /\
  line_epochs
    (trace (fst (train_any tr te model epochs uf sp (PyStr s) cu lf opt sch
                           sil)))
  = (if sil then [] else repeat 0%nat (S (List.length (tr 0%nat)))).
Proof.
  intros U0 He.
  destruct (string_save_freq_run s U0 He) as (Hfst & Hsome & Hty & Hun).
  destruct (zero_save_freq_first_epoch tr te model epochs uf sp 0 cu lf opt
              sch sil eq_refl U0 He) as (_ & _ & Hz & _).
  rewrite Hfst.
  destruct (epoch_summary (run_cfg tr te uf sp 0 cu lf sil) (run_folder sp) 0
              (run_start model sp cu opt sch))
    as (_ & (sv & S1 & _ & _ & S4) & _).
  destruct (epoch_new_events (run_cfg tr te uf sp 0 cu lf sil) (run_folder sp)
              0 (run_start model sp cu opt sch)) as (new & N1 & _ & N3).
  destruct (epoch_evaluation (run_cfg tr te uf sp 0 cu lf sil) (run_folder sp)
              0 (run_start model sp cu opt sch)) as (Ev0 & Ev1).
  destruct (counter_at_division_cases tr te uf sp 0 cu lf sil 0
              (run_start model sp cu opt sch)) as (_ & _ & C3).
  destruct (run_start_trace model sp cu opt sch) as (_ & R2 & R3 & _).
  simpl update_freq in Ev0, Ev1.
  rewrite !evaluated_epochs_divisors.
  split; [|split; [|split]].
  - intros Hb. split; [exact (Hty Hb)|].
    specialize (Hz Hb).
    destruct (fires uf 0) eqn:G.
    + specialize (Ev1 eq_refl).
      destruct (counter_at_division _ 0 _) as [k|].
      * destruct Ev1 as (_ & Hd). rewrite Hd, R2. reflexivity.
      * destruct Ev1 as (Hx & _). rewrite Hz in Hx. discriminate.
    + destruct (Ev0 eq_refl) as (_ & Hd). rewrite Hd, R2. reflexivity.
  - intros G T1 T2. split; [exact (Hun G T1 T2)|].
    specialize (Ev1 G). rewrite (C3 T2 T1) in Ev1.
    change (index (run_start model sp cu opt sch)) with (@None nat) in Ev1.
    destruct Ev1 as (_ & _ & Hd). rewrite Hd, R2. reflexivity.
  - rewrite S1, R3, S4; [reflexivity|exact Hsome].
  - rewrite N1. unfold line_epochs in *. rewrite flat_map_app, N3.
    unfold run_start. simpl. now destruct (run_folder sp).
Qed.

Lemma line_epochs_in (i : nat) (t : list Event) :
  In i (line_epochs t) -> exists tl m, In (Description i tl m) t.
Proof.
  induction t as [|e t IH]; [contradiction|].
  destruct e as [f|j|j tl m|j total d|p n]; simpl; intros H;
    try (destruct (IH H) as (tl' & m' & Hin); exists tl', m'; now right).
  destruct H as [->|H].
  - exists tl, m. now left.
  - destruct (IH H) as (tl' & m' & Hin). exists tl', m'. now right.
Qed.

(** Without a scheduler a run makes no scheduler step, whatever the type
    of [save_freq]. *)
Lemma train_any_no_scheduler (v : PyVal) :
  scheduler_steps
    (trace (fst (train_any tr te model epochs uf sp v cu lf opt None sil)))
  = [].
Proof.
  unfold train_any. rewrite epochs_loop_any_epochs_loop by reflexivity.
  unfold as_outcome. simpl fst.
  rewrite epochs_loop_no_scheduler by reflexivity.
  simpl. now destruct sp.
Qed.

(** A run that is not silent and has an epoch shows a progress line of
    the first epoch with the test loss 0.0. *)
Lemma train_any_first_line (v : PyVal) :
  sil = false -> 1 <= epochs ->
  exists m,
    In (Description 0 f_zero m)
       (trace (fst (train_any tr te model epochs uf sp v cu lf opt sch sil))).
Proof.
  intros Hs He. rewrite train_any_train. unfold as_outcome. simpl fst.
  destruct (run_progress tr te model epochs uf sp (int_or_zero v) cu lf opt
              sch sil) as (k & more & _ & K2 & K3 & _ & K5 & _).
  specialize (K2 He). rewrite Hs in K5.
  assert (Hin : In 0%nat (line_epochs more)).
  { rewrite K5. destruct k as [|k]; [lia|]. simpl. now left. }
  apply line_epochs_in in Hin. destruct Hin as (tl & m & Hin).
  assert (Hall : In (Description 0 tl m)
                    (trace (fst (train tr te model epochs uf sp
                                       (int_or_zero v) cu lf opt sch sil))))
    by (rewrite K3; apply in_or_app; now right).
  assert (Htl : tl = f_zero).
  { rewrite train_unfold in Hall.
    apply (epochs_loop_lines
             (run_cfg tr te uf sp (int_or_zero v) cu lf sil) (run_folder sp)
             (Z.to_nat epochs) 0 (run_start model sp cu opt sch))
      with (i := 0%nat) (m := m); auto.
    - intros i' tl' m' Hin' _. exfalso.
      now apply (run_start_trace model sp cu opt sch) in Hin'.
    - intros j Hj. lia. }
  exists m. now rewrite <- Htl.
Qed.

Lemma scheduler_steps_in (i : nat) (t : list Event) :
  In (SchedulerStep i) t -> In i (scheduler_steps t).
Proof.
  induction t as [|e t IH]; [contradiction|].
  intros [->|H]; [now left|].
  destruct e; simpl; auto.
Qed.

End AnySaveFreq.

End Controller.

Arguments Makedirs {Net F}.
Arguments SchedulerStep {Net F}.
Arguments Description {Net F}.
Arguments Evaluated {Net F}.
Arguments Saved {Net F}.
Arguments trace {Net Optim Sched F}.
Arguments test_loss {Net Optim Sched F}.
Arguments index {Net Optim Sched F}.
Arguments evaluated_epochs {Net F}.
Arguments eval_divisors {Net F}.
Arguments saved_paths {Net F}.
Arguments scheduler_steps {Net F}.

(** ** A small instance, to run the controller

    The model is the number of optimizer steps taken, a batch is the loss
    it yields, losses are rationals, the optimizer is its learning rate
    and the scheduler does nothing. *)

Definition toy_zero : Q := 0%Q.
Definition toy_add (a b : Q) : Q := Qred (a + b)%Q.
Definition toy_div (t : Q) (n : Z) : Q := Qred (t / inject_Z n)%Q.
Definition toy_mean (l : list Q) : Q :=
  Qred (fold_right Qplus 0%Q l / inject_Z (Z.of_nat (List.length l)))%Q.
Definition toy_adam (m : nat) (lr : Q) : Q := lr.
Definition toy_float (c : bool) (m : nat) : nat := m.
Definition toy_device (c : bool) (b : Q) : Q := b.
Definition toy_forward (l : unit) (m : nat) (b : Q) : nat * Q := (m, b).
Definition toy_backward (l : unit) (o : Q) (m : nat) (b : Q) : Q * nat :=
  (o, S m).
Definition toy_scheduler_step (s : unit) (o : Q) : unit * Q := (s, o).
Definition toy_now : string := "2019-06-01_12-00-00".

Definition toy_train :=
  train nat Q unit Q unit Q toy_zero toy_add toy_div toy_mean tt toy_adam
        toy_float toy_device toy_forward toy_backward toy_scheduler_step
        toy_now.

(** Two training batches and two test batches at every epoch. *)
Definition two_batches (i : nat) : list Q := [1 # 2; 1 # 4].
Definition no_batches (i : nat) : list Q := [].

(** Ten epochs, evaluation every third, a checkpoint every fifth. *)
Definition ten_epochs : State nat Q unit Q * option PyError :=
  toy_train two_batches two_batches 0%nat 10 3 (Some "runs"%string) 5 false
            None None None true.

(** Three epochs with negative frequencies. *)
Definition negative_frequencies : State nat Q unit Q * option PyError :=
  toy_train two_batches two_batches 0%nat 3 (-3) (Some "runs"%string) (-1)
            false None None None true.

(** *** Runs of the instance: the evaluation gate *)

Lemma test_loss_gate_witness :
  0 < 3 /\
  map S (evaluated_epochs (trace (fst ten_epochs))) = [3; 6; 9]%nat.
Proof.
  assert (H : 0 < 3) by lia.
  split; [exact H|].
  apply (test_loss_gate nat Q unit Q unit Q toy_zero toy_add toy_div toy_mean
           tt toy_adam toy_float toy_device toy_forward toy_backward
           toy_scheduler_step toy_now two_batches two_batches 0%nat 10 3
           (Some "runs"%string) 5 false None None None true H).
  - vm_compute. reflexivity.
  - reflexivity.
  - reflexivity.
Defined.

(** *** Runs of the instance: checkpoints *)

Lemma checkpoint_gate_witness :
  saved_paths (trace (fst ten_epochs))
  = ["runs/2019-06-01_12-00-00/epoch-5.dat";
     "runs/2019-06-01_12-00-00/epoch-10.dat"]%string.
Proof.
  destruct (checkpoint_gate nat Q unit Q unit Q toy_zero toy_add toy_div
              toy_mean tt toy_adam toy_float toy_device toy_forward
              toy_backward toy_scheduler_step toy_now two_batches two_batches
              0%nat 10 3 (Some "runs"%string) 5 false None None None true)
    as (_ & _ & _ & _ & H & _).
  apply (H "runs"%string); reflexivity.
Defined.

(** *** Runs of the instance: the divisor *)

Lemma divisor_is_last_loop_counter_witness :
  fires 1 0 = true /\
  eval_divisors
    (trace (fst (epoch nat Q unit Q unit Q toy_zero toy_add toy_div toy_mean
                   toy_device toy_forward toy_backward toy_scheduler_step
                   (run_cfg Q unit tt two_batches no_batches 1 None 1 false
                            None true)
                   (run_folder toy_now None) 0
                   (run_start nat Q unit Q toy_zero toy_adam toy_float
                              toy_now 0%nat None false None None))))
  = [(0%nat, 2)].
Proof.
  assert (G : fires 1 0 = true) by reflexivity.
  split; [exact G|].
  pose proof (divisor_is_last_loop_counter nat Q unit Q unit Q toy_zero
                toy_add toy_div toy_mean tt toy_adam toy_float toy_device
                toy_forward toy_backward toy_scheduler_step toy_now
                two_batches no_batches 0%nat 1 None 1 false None None None
                true 0%nat
                (run_start nat Q unit Q toy_zero toy_adam toy_float
                           toy_now 0%nat None false None None) G)
    as (H & _).
  apply H.
Defined.

(** *** Runs of the instance: frequencies that are not positive *)

(** C8, as stated, fails for negative frequencies: with [update_freq] -3
    and [save_freq] -1 a run of three epochs ends normally, having
    evaluated at epoch 3 and written a checkpoint at every epoch. *)
Lemma negative_frequencies_do_not_fail :
  snd negative_frequencies = None /\
  map S (evaluated_epochs (trace (fst negative_frequencies))) = [3%nat] /\
  saved_paths (trace (fst negative_frequencies))
  = ["runs/2019-06-01_12-00-00/epoch-1.dat";
     "runs/2019-06-01_12-00-00/epoch-2.dat";
     "runs/2019-06-01_12-00-00/epoch-3.dat"]%string.
Proof. vm_compute. repeat split. Qed.

Lemma nonpositive_frequencies_witness :
  snd (toy_train two_batches two_batches 0%nat 2 0 None 1 false
                 None None None true)
  = Some ZeroDivisionError.
Proof.
  destruct (nonpositive_frequencies nat Q unit Q unit Q toy_zero toy_add
              toy_div toy_mean tt toy_adam toy_float toy_device toy_forward
              toy_backward toy_scheduler_step toy_now two_batches two_batches
              0%nat 2 0 None 1 false None None None true)
    as (H & _).
  destruct (H eq_refl ltac:(lia)) as (Hrun & _).
  exact (f_equal snd Hrun).
Defined.

(** *** Runs of the instance: progress lines *)

Lemma progress_lines_before_first_evaluation_witness :
  exists m,
    In (Description 0 toy_zero m)
       (trace (fst (toy_train two_batches two_batches 0%nat 4 3 None 5 false
                              None None None false))).
Proof.
  destruct (progress_lines_before_first_evaluation nat Q unit Q unit Q
              toy_zero toy_add toy_div toy_mean tt toy_adam toy_float
              toy_device toy_forward toy_backward toy_scheduler_step toy_now
              two_batches two_batches 0%nat 4 3 None 5 false None None None
              false)
    as (_ & _ & _ & H).
  apply H; [reflexivity|lia].
Defined.

(** *** Runs of the instance: further properties *)

Definition toy_train_any :=
  train_any nat Q unit Q unit Q toy_zero toy_add toy_div toy_mean tt toy_adam
            toy_float toy_device toy_forward toy_backward toy_scheduler_step
            toy_now.

Definition toy_cfg : Config Q unit :=
  run_cfg Q unit tt two_batches two_batches 3 None 5 false None false.

Definition toy_start : State nat Q unit Q :=
  run_start nat Q unit Q toy_zero toy_adam toy_float toy_now 0%nat None false
            None None.

Lemma progress_lines_show_running_mean_witness :
  silent Q unit toy_cfg = false /\
  trace (train_pass nat Q unit Q unit Q toy_mean toy_device toy_forward
                    toy_backward toy_scheduler_step toy_cfg 0 toy_start)
  = [Description 0 0%Q None;
     Description 0 0%Q (Some (1 # 2)%Q);
     Description 0 0%Q (Some (3 # 8)%Q)].
Proof.
  assert (H : silent Q unit toy_cfg = false) by reflexivity.
  split; [exact H|].
  destruct (progress_lines_show_running_mean nat Q unit Q unit Q toy_mean
              toy_device toy_forward toy_backward toy_scheduler_step toy_cfg
              0 toy_start H) as (Ht & _).
  rewrite Ht. vm_compute. reflexivity.
Defined.

Lemma unbound_counter_needs_empty_loaders_witness :
  snd (toy_train no_batches no_batches 0%nat 1 1 None 1 false None None None
                 true) = Some UnboundLocalError /\
  exists i,
    (i < Z.to_nat 1)%nat /\ fires 1 i = true /\ no_batches i = [] /\
    forall j, (j <= i)%nat -> no_batches j = [].
Proof.
  assert (H : snd (toy_train no_batches no_batches 0%nat 1 1 None 1 false
                             None None None true) = Some UnboundLocalError)
    by (vm_compute; reflexivity).
  split; [exact H|].
  exact (unbound_counter_needs_empty_loaders nat Q unit Q unit Q toy_zero
           toy_add toy_div toy_mean tt toy_adam toy_float toy_device
           toy_forward toy_backward toy_scheduler_step toy_now no_batches
           no_batches 0%nat 1 1 None 1 false None None None true H).
Defined.

Lemma run_completes_witness :
  snd ten_epochs = None.
Proof.
  apply (run_completes nat Q unit Q unit Q toy_zero toy_add toy_div toy_mean
           tt toy_adam toy_float toy_device toy_forward toy_backward
           toy_scheduler_step toy_now two_batches two_batches 0%nat 10 3
           (Some "runs"%string) 5 false None None None true).
  - lia.
  - lia.
  - left. discriminate.
Defined.

Lemma evaluations_and_checkpoints_count_witness :
  List.length (evaluated_epochs (trace (fst ten_epochs))) = 3%nat /\
  List.length (saved_paths (trace (fst ten_epochs))) = 2%nat.
Proof.
  apply (evaluations_and_checkpoints_count nat Q unit Q unit Q toy_zero
           toy_add toy_div toy_mean tt toy_adam toy_float toy_device
           toy_forward toy_backward toy_scheduler_step toy_now two_batches
           two_batches 0%nat 10 3 (Some "runs"%string) 5 false None None None
           true).
  - lia.
  - lia.
  - left. discriminate.
Defined.

Lemma string_save_freq_fails_witness :
  snd (toy_train_any two_batches two_batches 0%nat 10 3 (Some "runs"%string)
                     (PyStr "5") false None None None true)
  = Some TypeError.
Proof.
  apply (string_save_freq_fails nat Q unit Q unit Q toy_zero toy_add toy_div
           toy_mean tt toy_adam toy_float toy_device toy_forward toy_backward
           toy_scheduler_step toy_now two_batches two_batches 0%nat 10 3
           (Some "runs"%string) false None None None true "5"%string).
  - lia.
  - lia.
  - right. left. discriminate.
Defined.

End Training.

Module Main.

(** * The script

    The body of [if __name__ == '__main__':], after the command line has
    been parsed.  The data sets, the network and the file system are
    those of the other modules and of the host libraries: the script is
    stated for any of them, their calls being taken to return. *)

(** The parsed command line, as far as the script reads it.  [debug_size]
    is [None] or the four integers given; [save_freq] is the default of
    the module of defaults or, given on the command line, a string
    ([type = str]). *)
Record Namespace : Type := mkNamespace {
  debug_size : option (Z * Z * Z * Z);
  silent : bool;
  datapath : string;
  scale_inputs : bool;
  load_model : option string;
  conv_layers : Z;
  padding : list Z;
  dilation : list Z;
  kernel_size : list Z;
  stride : list Z;
  filters : list Z;
  even_padding : bool;
  weight_init : string;
  conv_actv : list string;
  fc_actv : list string;
  cuda : bool;
  batch_size : Z;
  workers : Z;
  epochs : Z;
  update_freq : Z;
  savepath : option string;
  save_freq : Training.PyVal;
  lr : Q
}.

(** How the script ends: at its last line, by [exit()], or on an error. *)
Inductive Ending : Type :=
| Returned
| Exited
| Raised (e : Training.Failure).

(** What [print_network_size] reads of the command line. *)
Definition walk_args (args : Namespace) (d : Z * Z * Z * Z) : Geometry.Args :=
  Geometry.mkArgs (padding args) (dilation args) (kernel_size args)
                  (stride args) (conv_layers args) (filters args) d.

Section Script.

Variables Net Optim Sched Batch Loss F Dataset : Type.

Variable f_zero : F.
Variable f_add : F -> F -> F.
Variable f_div_int : F -> Z -> F.
Variable np_mean : list F -> F.
Variable MSELoss : Loss.
Variable Adam : Net -> Q -> Optim.
Variable to_float : bool -> Net -> Net.
Variable to_device : bool -> Batch -> Batch.
Variable forward_loss : Loss -> Net -> Batch -> Net * F.
Variable backward_step : Loss -> Optim -> Net -> Batch -> Optim * Net.
Variable scheduler_step : Sched -> Optim -> Sched * Optim.
Variable now : string.

(** [get_out_dims] of [model.py], [int(fc/2)] and the product of an
    array that is not an [int64] one, for the walk. *)
Variable out_dims :
  Geometry.Vec3 -> Geometry.Vec3 -> Geometry.Vec3 -> Geometry.Vec3 ->
  Geometry.Vec3 -> Geometry.Vec3.
Variable int_half : Z -> Z.
Variable np_prod_wide : Geometry.Vec3 -> Z.

(** [get_sample_dict], [get_sample_ages] and [NiftiDataset] on a data
    path, for the data set named, with [scale_inputs] and, when it is
    passed, [cache_images]. *)
Variable fetch : string -> string -> bool -> option bool -> Dataset.

(** [MAPnet(...)] from the command line and the training set, with the
    weights initialised. *)
Variable MAPnet : Namespace -> Dataset -> Net.

(** [os.path.exists], [torch.load] and [model.cuda()]. *)
Variable path_exists : string -> bool.
Variable torch_load : string -> Net.
Variable model_cuda : Net -> Net.

(** [DataLoader(ds, num_workers, pin_memory, batch_size, shuffle=True)]:
    the batches of the pass of epoch [i]. *)
Variable DataLoader : Dataset -> Z -> bool -> Z -> nat -> list Batch.

(** What the script prints or shows, oldest first. *)
Inductive Output : Type :=
| Printed (s : string)
| Walked (l : Geometry.Line)
| Summarized
| Trained (e : Training.Event Net F).

Definition train_ds (args : Namespace) : Dataset :=
  fetch (datapath args) "train" (scale_inputs args) None.

Definition test_ds (args : Namespace) : Dataset :=
  fetch (datapath args) "test" (scale_inputs args) (Some true).

Definition train_loader (args : Namespace) : nat -> list Batch :=
  DataLoader (train_ds args) (workers args) (cuda args) (batch_size args).

Definition test_loader (args : Namespace) : nat -> list Batch :=
  DataLoader (test_ds args) (workers args) (cuda args) (batch_size args).

(** [print(s)] unless [--silent]. *)
Definition say (args : Namespace) (s : string) : list Output :=
  if silent args then [] else [Printed s].

(** The model: built, or loaded from a file that has to exist. *)
Definition get_model (args : Namespace) : list Output * (PyError + Net) :=
  match load_model args with
  | None =>
    (say args "Initializing model ...", inr (MAPnet args (train_ds args)))
  | Some p =>
    (say args "Loading model ...",
     if path_exists p then inr (torch_load p) else inl ValueError)
  end.

(** The call of [train] that ends the script: neither [loss_func] nor
    [scheduler] nor [silent] is passed. *)
Definition call_train (args : Namespace) (model : Net)
  : Training.State Net Optim Sched F * option Training.Failure :=
  Training.train_any Net Optim Sched Batch Loss F f_zero f_add f_div_int
    np_mean MSELoss Adam to_float to_device forward_loss backward_step
    scheduler_step now
    (train_loader args) (test_loader args) model (epochs args)
    (update_freq args) (savepath args) (save_freq args) (cuda args)
    None (Some (fun x => Adam x (lr args))) None false.

Definition main (args : Namespace) : list Output * Ending :=
  match debug_size args with
  | Some d =>
    let r := Geometry.print_network_size out_dims int_half np_prod_wide
                                         (walk_args args d) in
    (map Walked (Geometry.stdout (fst r)),
     match snd r with
     | Some e => Raised (Training.Py e)
     | None => Exited
     end)
  | None =>
    let out1 := say args "Fetching training data ..." in
    let out2 := say args "Fetching test data ..." in
    match get_model args with
    | (out3, inl e) => (out1 ++ out2 ++ out3, Raised (Training.Py e))
    | (out3, inr model) =>
      let model := if cuda args then model_cuda model else model in
      let out4 := if silent args then [] else [Summarized] in
      let r := call_train args model in
      (out1 ++ out2 ++ out3 ++ out4
            ++ map Trained (Training.trace (fst r)),
       match snd r with
       | Some e => Raised e
       | None => Returned
       end)
    end
  end.

(** The script gets as far as training: it is not in debug mode and, when
    a model is to be loaded, its file exists. *)
Definition reaches_training (args : Namespace) : Prop :=
  debug_size args = None /\
  match load_model args with
  | None => True
  | Some p => path_exists p = true
  end.

(** The model the script trains. *)
Definition trained_model (args : Namespace) : Net :=
  let model := match load_model args with
               | None => MAPnet args (train_ds args)
               | Some p => torch_load p
               end in
  if cuda args then model_cuda model else model.

Lemma main_training (args : Namespace) :
  reaches_training args ->
  main args
  = (say args "Fetching training data ..."
     ++ say args "Fetching test data ..."
     ++ say args (match load_model args with
                  | None => "Initializing model ..."
                  | Some _ => "Loading model ..."
                  end)
     ++ (if silent args then [] else [Summarized])
     ++ map Trained
            (Training.trace (fst (call_train args (trained_model args)))),
     match snd (call_train args (trained_model args)) with
     | Some e => Raised e
     | None => Returned
     end).
Proof.
  intros (Hd & Hm). unfold main, get_model, trained_model. rewrite Hd.
  destruct (load_model args) as [p|]; [rewrite Hm|]; reflexivity.
Qed.

(** [--silent] silences the script, not the training: with it the script
    prints nothing of its own and shows no summary, but the progress
    lines of [train] are shown all the same, [silent] not being passed
    on. *)
Theorem silent_flag_does_not_reach_train (args : Namespace) :
  silent args = true ->
  reaches_training args ->
  1 <= epochs args ->
  (forall o, In o (fst (main args)) -> exists e, o = Trained e) /\
  exists m,
    In (Trained (Training.Description 0 f_zero m)) (fst (main args)).
Proof.
  intros Hs Hr He. rewrite (main_training args Hr).
  unfold say. rewrite Hs. simpl fst.
  split.
  - intros o Ho. apply in_map_iff in Ho. destruct Ho as (e & <- & _).
    now exists e.
  - destruct (Training.train_any_first_line Net Optim Sched Batch Loss F
                f_zero f_add f_div_int np_mean MSELoss Adam to_float
                to_device forward_loss backward_step scheduler_step now
                (train_loader args) (test_loader args) (trained_model args)
                (epochs args) (update_freq args) (savepath args) (cuda args)
                None (Some (fun x => Adam x (lr args))) None false
                (save_freq args) eq_refl He) as (m & Hm).
    exists m. apply in_map_iff. exists (Training.Description 0 f_zero m).
    split; [reflexivity|exact Hm].
Qed.

(** The script never steps a learning-rate scheduler: it passes none to
    [train]. *)
Theorem script_never_schedules (args : Namespace) (i : nat) :
  ~ In (Trained (Training.SchedulerStep i)) (fst (main args)).
Proof.
  assert (Htrace : forall model,
             ~ In (Trained (Training.SchedulerStep i))
                  (map Trained (Training.trace (fst (call_train args model))))).
  { intros model H. apply in_map_iff in H. destruct H as (e & He & Hin).
    injection He as ->.
    apply Training.scheduler_steps_in in Hin.
    unfold call_train in Hin.
    now rewrite Training.train_any_no_scheduler in Hin. }
  unfold main. destruct (debug_size args) as [d|].
  - simpl. intros H. apply in_map_iff in H.
    destruct H as (l & Hl & _). discriminate.
  - destruct (get_model args) as [out3 [e|model]] eqn:G;
      unfold get_model in G; simpl fst; intros H.
    + assert (Hsay : forall s, ~ In (Trained (Training.SchedulerStep i))
                                    (say args s)).
      { intros s Hin. unfold say in Hin.
        destruct (silent args); [contradiction|].
        destruct Hin as [Hin|[]]. discriminate. }
      apply in_app_or in H. destruct H as [H|H]; [now apply Hsay in H|].
      apply in_app_or in H. destruct H as [H|H]; [now apply Hsay in H|].
      destruct (load_model args); injection G as <- _; now apply Hsay in H.
    + assert (Hsay : forall s, ~ In (Trained (Training.SchedulerStep i))
                                    (say args s)).
      { intros s Hin. unfold say in Hin.
        destruct (silent args); [contradiction|].
        destruct Hin as [Hin|[]]. discriminate. }
      apply in_app_or in H. destruct H as [H|H]; [now apply Hsay in H|].
      apply in_app_or in H. destruct H as [H|H]; [now apply Hsay in H|].
      apply in_app_or in H. destruct H as [H|H].
      { destruct (load_model args); injection G as <- _; now apply Hsay in H. }
      apply in_app_or in H. destruct H as [H|H].
      { destruct (silent args); [contradiction|].
        destruct H as [H|[]]. discriminate. }
      now apply Htrace in H.
Qed.


End Script.

(** ** The script on the small instance *)

Definition toy_args : Namespace :=
  mkNamespace None true "data" false None 3 [0] [1] [3] [1] [4; 4; 4] false
              "xavier" ["relu"%string] ["relu"%string] false 32 1 2 1
              (Some "runs"%string) (Training.PyStr "5") (1 # 1000).

Definition toy_fetch (path name : string) (scale : bool) (cache : option bool)
  : list Q := [(1 # 2)%Q; (1 # 4)%Q].

Definition toy_MAPnet (args : Namespace) (ds : list Q) : nat := 0%nat.
Definition toy_path_exists (p : string) : bool := false.
Definition toy_torch_load (p : string) : nat := 0%nat.
Definition toy_model_cuda (m : nat) : nat := m.
Definition toy_DataLoader (ds : list Q) (w : Z) (pin : bool) (b : Z) (i : nat)
  : list Q := ds.

Definition toy_main :=
  main nat Q unit Q unit Q (list Q) Training.toy_zero Training.toy_add
       Training.toy_div Training.toy_mean tt Training.toy_adam
       Training.toy_float Training.toy_device Training.toy_forward
       Training.toy_backward Training.toy_scheduler_step Training.toy_now
       Geometry.get_out_dims Geometry.int_half_small Geometry.np_prod_object
       toy_fetch toy_MAPnet toy_path_exists toy_torch_load toy_model_cuda
       toy_DataLoader.

Lemma silent_flag_does_not_reach_train_witness :
  silent toy_args = true /\
  exists m,
    In (Trained nat Q (Training.Description 0 Training.toy_zero m))
       (fst (toy_main toy_args)).
Proof.
  assert (H : silent toy_args = true) by reflexivity.
  split; [exact H|].
  apply (silent_flag_does_not_reach_train nat Q unit Q unit Q (list Q)
           Training.toy_zero Training.toy_add Training.toy_div
           Training.toy_mean tt Training.toy_adam Training.toy_float
           Training.toy_device Training.toy_forward Training.toy_backward
           Training.toy_scheduler_step Training.toy_now Geometry.get_out_dims
           Geometry.int_half_small Geometry.np_prod_object toy_fetch
           toy_MAPnet toy_path_exists toy_torch_load toy_model_cuda
           toy_DataLoader toy_args H).
  - split; [reflexivity|exact I].
  - simpl. lia.
Defined.


End Main.
